(** * Task tracker behind a load balancer

    A shallow embedding of the deployment bundle: the Express/Mongoose
    backend ([backend/server.js]), the React client
    ([frontend/src/App.js]) and the target-group call of the
    provisioning script ([aws-setup.sh]).

    The third-party systems the code talks to are part of the model's
    environment: the operating system and clock ([Env]), the document
    store (a finite map from identifiers to records, with an injected
    failure), Mongoose's schema casting (a request body is read through
    the paths of [TaskSchema]), the browser's [fetch] (a reply handed to
    the second half of a handler) and the browser's interval timers (a
    virtual clock in milliseconds). *)

From Stdlib Require Import ZArith NArith Lia Ascii String.
From stdpp Require Import base strings gmap list sorting numbers pretty.

(** ** JSON values

    Numbers are the integral ones; no path of the schema and no field
    the client reads is numeric. *)

#[warnings="-register-all"]
Inductive json : Type :=
| JNull
| JBool (b : bool)
| JNum (n : Z)
| JStr (s : string)
| JArr (l : list json)
| JObj (o : gmap string json).

(** ** Backend: backend/server.js *)

Module Backend.

(** *** The host, as the process observes it through Node's [os] and
    [Date], the driver's identifier generator and the store's health. *)

Record Iface := {
  family : string;
  internal : bool;
  address : string
}.

Record Env := {
  hostname : string;                               (* os.hostname() *)
  networkInterfaces : list (string * list Iface);  (* os.networkInterfaces(), keys in Object.keys order *)
  now : Z;                                         (* Date.now(), milliseconds since the epoch *)
  newObjectId : N;                                 (* the identifier generated for a new document *)
  dbError : option string                          (* Some msg: the store fails this request's operation with msg *)
}.

(** Library functions taken as parameters: the cast of a string to an
    ObjectId ([inl] carries the CastError's message) and
    [Date.prototype.toISOString]. *)
Record Lib := {
  castObjectId : string -> string + N;
  toISOString : Z -> string
}.

(** The inner loop of [getServerIp]: the first interface record that is
    IPv4 and not internal. *)
Fixpoint firstExternalIPv4 (ifaces : list Iface) : option string :=
  match ifaces with
  | [] => None
  | iface :: rest =>
      if String.eqb (family iface) "IPv4" && negb (internal iface)
      then Some (address iface)
      else firstExternalIPv4 rest
  end.

Fixpoint getServerIp_from (interfaces : list (string * list Iface)) : string :=
  match interfaces with
  | [] => "unknown"
  | (_, ifaces) :: rest =>
      match firstExternalIPv4 ifaces with
      | Some a => a
      | None => getServerIp_from rest
      end
  end.

Definition getServerIp (env : Env) : string :=
  getServerIp_from (networkInterfaces env).

(** *** TaskSchema

    One path of the schema as a request body (or a document under
    construction) holds it, after the cast to the path's type. *)
Inductive field (A : Type) : Type :=
| Absent                      (* the key is missing: undefined *)
| Null                        (* the key holds null *)
| Val (a : A)                 (* a value of the path's type *)
| Invalid (reason : string).  (* a value the cast rejects; reason is the CastError's message *)
Arguments Absent {A}.
Arguments Null {A}.
Arguments Val {A} a.
Arguments Invalid {A} reason.

(** An object read through the schema: [req.body], the argument of
    [new Task], a document before it is saved, the update of
    [findByIdAndUpdate]. Keys the schema does not declare are dropped by
    Mongoose (strict mode) and do not appear; neither does the version
    key. Update operators (keys starting with a dollar sign) are outside
    the model. *)
Record Paths := {
  p_id : field N;
  p_title : field string;
  p_description : field string;
  p_completed : field bool;
  p_createdAt : field Z;
  p_serverHostname : field string;
  p_serverIp : field string
}.

(** One path of a record as the store holds it, and of a document as
    Mongoose hands it to the handler. *)
Inductive slot (A : Type) : Type :=
| Missing          (* the record has no such key *)
| IsNull           (* the key holds null *)
| Has (a : A).     (* the key holds a value of the path's type *)
Arguments Missing {A}.
Arguments IsNull {A}.
Arguments Has {A} a.

(** A stored record; its identifier is its key in the store. *)
Record Task := {
  title : slot string;
  description : slot string;
  completed : slot bool;
  createdAt : slot Z;
  serverHostname : slot string;
  serverIp : slot string
}.

Abbreviation Doc := (N * Task)%type.
Abbreviation Store := (gmap N Task).

Definition withDefault {A} (f : field A) (d : A) : field A :=
  match f with
  | Absent => Val d
  | _ => f
  end.

(** [new Task(obj)]: the paths of [obj], with the schema's defaults
    ([completed: false], [createdAt: Date.now]) and a generated [_id]
    where the key is missing. A default does not replace null. *)
Definition Task_new (env : Env) (obj : Paths) : Paths :=
  {| p_id := withDefault (p_id obj) (newObjectId env);
     p_title := p_title obj;
     p_description := p_description obj;
     p_completed := withDefault (p_completed obj) false;
     p_createdAt := withDefault (p_createdAt obj) (now env);
     p_serverHostname := p_serverHostname obj;
     p_serverIp := p_serverIp obj |}.

(** [{...body, serverHostname: h, serverIp: ip}] *)
Definition spreadWithServer (body : Paths) (h ip : string) : Paths :=
  {| p_id := p_id body;
     p_title := p_title body;
     p_description := p_description body;
     p_completed := p_completed body;
     p_createdAt := p_createdAt body;
     p_serverHostname := Val h;
     p_serverIp := Val ip |}.

Definition castError {A} (path : string) (f : field A) : list (string * string) :=
  match f with
  | Invalid reason => [(path, reason)]
  | _ => []
  end.

(** [required: true] on a String path: null, undefined and the empty
    string fail. *)
Definition requiredError (path : string) (f : field string) : list (string * string) :=
  match f with
  | Absent | Null | Val EmptyString => [(path, "Path `" +:+ path +:+ "` is required.")]
  | _ => []
  end.

(** The errors [validate()] reports, one per failing path: the cast
    errors recorded when the document was built, then the failure of
    the required validator. *)
Definition validationErrors (doc : Paths) : list (string * string) :=
  castError "_id" (p_id doc)
  ++ castError "title" (p_title doc)
  ++ castError "description" (p_description doc)
  ++ castError "completed" (p_completed doc)
  ++ castError "createdAt" (p_createdAt doc)
  ++ castError "serverHostname" (p_serverHostname doc)
  ++ castError "serverIp" (p_serverIp doc)
  ++ requiredError "title" (p_title doc).

Definition validationMessage (errs : list (string * string)) : string :=
  "Task validation failed: "
  +:+ String.concat ", " (map (fun e => e.1 +:+ ": " +:+ e.2) errs).

(** What [save] writes for a path: a key that is undefined is not
    written. *)
Definition stored {A} (f : field A) : slot A :=
  match f with
  | Val a => Has a
  | Null => IsNull
  | Absent | Invalid _ => Missing
  end.

Definition toTask (doc : Paths) : Task :=
  {| title := stored (p_title doc);
     description := stored (p_description doc);
     completed := stored (p_completed doc);
     createdAt := stored (p_createdAt doc);
     serverHostname := stored (p_serverHostname doc);
     serverIp := stored (p_serverIp doc) |}.

(** The 24 hexadecimal digits of an identifier (a 96-bit number). *)
Definition hexDigit (d : N) : ascii :=
  match d with
  | 0 => "0" | 1 => "1" | 2 => "2" | 3 => "3" | 4 => "4" | 5 => "5"
  | 6 => "6" | 7 => "7" | 8 => "8" | 9 => "9" | 10 => "a" | 11 => "b"
  | 12 => "c" | 13 => "d" | 14 => "e" | _ => "f"
  end%N%char.

Fixpoint hexDigits (k : nat) (n : N) (acc : string) : string :=
  match k with
  | O => acc
  | S k' => hexDigits k' (n / 16)%N (String (hexDigit (n mod 16)%N) acc)
  end.

Definition toHexString (id : N) : string := hexDigits 24 id EmptyString.

(** [task.save()]: validation, then the insert, which the store refuses
    for an identifier a record already has. [inl] is the rejection's
    message. A document whose [_id] is null is outside the model: the
    code inserts it under the null identifier, a key the store of the
    model does not have, and the model rejects it. *)
Definition save (env : Env) (store : Store) (doc : Paths) : string + (Doc * Store) :=
  match validationErrors doc with
  | (_ :: _) as errs => inl (validationMessage errs)
  | [] =>
      match p_id doc with
      | Val id =>
          match dbError env with
          | Some msg => inl msg
          | None =>
              match store !! id with
              | Some _ =>
                  inl ("E11000 duplicate key error collection: fullstack-app.tasks index: _id_ dup key: { _id: ObjectId('"
                       +:+ toHexString id +:+ "') }")
              | None => inr ((id, toTask doc), <[id := toTask doc]> store)
              end
          end
      | _ => inl "document must have an _id before saving"
      end
  end.

(** Order of [sort({ createdAt: -1 })]: later dates first; a record
    without a date sorts after every dated one. *)
Definition dateLeb (a b : option Z) : bool :=
  match a, b with
  | None, _ => true
  | Some _, None => false
  | Some x, Some y => (x <=? y)%Z
  end.

(** The store compares a missing key as it compares null. *)
Definition sortKey (s : slot Z) : option Z :=
  match s with
  | Has x => Some x
  | Missing | IsNull => None
  end.

Definition newerFirst (d1 d2 : Doc) : Prop :=
  dateLeb (sortKey (createdAt d2.2)) (sortKey (createdAt d1.2)) = true.

(** A record read from the store becomes a document: a path with a
    schema default that the record lacks gets the default, computed
    when the document is built ([completed: false],
    [createdAt: Date.now]); null is left as it is. The clock is read
    once for a request: all documents of one answer get the same
    time. *)
Definition orDefault {A} (s : slot A) (d : A) : slot A :=
  match s with
  | Missing => Has d
  | _ => s
  end.

Definition hydrate (env : Env) (t : Task) : Task :=
  {| title := title t;
     description := description t;
     completed := orDefault (completed t) false;
     createdAt := orDefault (createdAt t) (now env);
     serverHostname := serverHostname t;
     serverIp := serverIp t |}.

Definition hydrateDoc (env : Env) (d : Doc) : Doc := (d.1, hydrate env d.2).

#[export] Instance newerFirst_dec d1 d2 : Decision (newerFirst d1 d2).
Proof. unfold newerFirst. apply _. Defined.

(** [Task.find().sort({ createdAt: -1 })]: the store sorts the records by
    what they hold, then each becomes a document. The store promises no
    order among records with equal dates; the model fixes one. *)
Definition find_sort (env : Env) (store : Store) : string + list Doc :=
  match dbError env with
  | Some msg => inl msg
  | None => inr (hydrateDoc env <$> merge_sort newerFirst (map_to_list store))
  end.

Definition updateCastErrors (upd : Paths) : list (string * string) :=
  castError "_id" (p_id upd)
  ++ castError "title" (p_title upd)
  ++ castError "description" (p_description upd)
  ++ castError "completed" (p_completed upd)
  ++ castError "createdAt" (p_createdAt upd)
  ++ castError "serverHostname" (p_serverHostname upd)
  ++ castError "serverIp" (p_serverIp upd).

Definition setPath {A} (f : field A) (old : slot A) : slot A :=
  match f with
  | Absent => old
  | Null => IsNull
  | Val a => Has a
  | Invalid _ => old
  end.

(** The update sets every path the body holds and leaves the others;
    validators do not run on updates. A body of update operators (keys
    starting with a dollar sign), which the handler would pass on as it
    is, is not a [Paths] and is outside the model. *)
Definition applyUpdate (upd : Paths) (t : Task) : Task :=
  {| title := setPath (p_title upd) (title t);
     description := setPath (p_description upd) (description t);
     completed := setPath (p_completed upd) (completed t);
     createdAt := setPath (p_createdAt upd) (createdAt t);
     serverHostname := setPath (p_serverHostname upd) (serverHostname t);
     serverIp := setPath (p_serverIp upd) (serverIp t) |}.

(** The store refuses an update that would change [_id]. *)
Definition changesId (id : N) (upd : Paths) : bool :=
  match p_id upd with
  | Absent => false
  | Val j => negb (N.eqb j id)
  | _ => true
  end.

(** [Task.findByIdAndUpdate(id, update, { new: true })]: the document
    of the record after the update, or null when no record has the
    identifier. *)
Definition findByIdAndUpdate (lib : Lib) (env : Env) (store : Store)
    (id : string) (upd : Paths) : string + (option Doc * Store) :=
  match castObjectId lib id with
  | inl msg => inl msg
  | inr i =>
      match updateCastErrors upd with
      | (_, msg) :: _ => inl msg
      | [] =>
          match dbError env with
          | Some msg => inl msg
          | None =>
              match store !! i with
              | None => inr (None, store)
              | Some t =>
                  if changesId i upd
                  then inl "Performing an update on the path '_id' would modify the immutable field '_id'"
                  else inr (Some (hydrateDoc env (i, applyUpdate upd t)),
                            <[i := applyUpdate upd t]> store)
              end
          end
      end
  end.

(** [Task.findByIdAndDelete(id)]: the removed record, or null. *)
Definition findByIdAndDelete (lib : Lib) (env : Env) (store : Store)
    (id : string) : string + (option Doc * Store) :=
  match castObjectId lib id with
  | inl msg => inl msg
  | inr i =>
      match dbError env with
      | Some msg => inl msg
      | None => inr ((fun t => hydrateDoc env (i, t)) <$> store !! i, delete i store)
      end
  end.

(** *** Responses: the status and the value handed to [res.json]. *)
Inductive payload : Type :=
| OfTasks (docs : list Doc)
| OfTask (doc : option Doc)    (* a document, or null *)
| OfError (msg : string)       (* { error: error.message } *)
| OfMessage (msg : string).    (* { message: ... } *)

Record response := {
  status : nat;
  body : payload
}.

(** [app.get('/api/tasks')] *)
Definition get_tasks (env : Env) (store : Store) : response * Store :=
  match find_sort env store with
  | inr tasks => ({| status := 200; body := OfTasks tasks |}, store)
  | inl msg => ({| status := 500; body := OfError msg |}, store)
  end.

(** [app.post('/api/tasks')] *)
Definition post_tasks (env : Env) (store : Store) (body : Paths) : response * Store :=
  let task := Task_new env (spreadWithServer body (hostname env) (getServerIp env)) in
  match save env store task with
  | inr (savedTask, store') => ({| status := 201; body := OfTask (Some savedTask) |}, store')
  | inl msg => ({| status := 400; body := OfError msg |}, store)
  end.

(** [app.put('/api/tasks/:id')] *)
Definition put_task (lib : Lib) (env : Env) (store : Store)
    (id : string) (body : Paths) : response * Store :=
  match findByIdAndUpdate lib env store id body with
  | inr (task, store') => ({| status := 200; body := OfTask task |}, store')
  | inl msg => ({| status := 400; body := OfError msg |}, store)
  end.

(** [app.delete('/api/tasks/:id')] *)
Definition delete_task (lib : Lib) (env : Env) (store : Store)
    (id : string) : response * Store :=
  match findByIdAndDelete lib env store id with
  | inr (_, store') => ({| status := 200; body := OfMessage "Task deleted" |}, store')
  | inl msg => ({| status := 400; body := OfError msg |}, store)
  end.

(** *** What [res.json] puts on the wire. A document serialises its
    identifier as 24 hexadecimal digits, its date in ISO form, and the
    version key of a document that was never saved twice; a path that
    is null is written as null and one that is missing is left out. *)
Definition setOpt (k : string) (v : option json) (o : gmap string json) : gmap string json :=
  match v with
  | Some x => <[k := x]> o
  | None => o
  end.

Definition jsonOf {A} (f : A -> json) (s : slot A) : option json :=
  match s with
  | Missing => None
  | IsNull => Some JNull
  | Has a => Some (f a)
  end.

Definition toJSON (lib : Lib) (d : Doc) : json :=
  JObj (setOpt "title" (jsonOf JStr (title d.2))
       (setOpt "description" (jsonOf JStr (description d.2))
       (setOpt "completed" (jsonOf JBool (completed d.2))
       (setOpt "createdAt" (jsonOf (fun t => JStr (toISOString lib t)) (createdAt d.2))
       (setOpt "serverHostname" (jsonOf JStr (serverHostname d.2))
       (setOpt "serverIp" (jsonOf JStr (serverIp d.2))
       (<["_id" := JStr (toHexString d.1)]> {["__v" := JNum 0]}))))))).

Definition wire (lib : Lib) (p : payload) : json :=
  match p with
  | OfTasks docs => JArr (toJSON lib <$> docs)
  | OfTask (Some d) => toJSON lib d
  | OfTask None => JNull
  | OfError msg => JObj {["error" := JStr msg]}
  | OfMessage msg => JObj {["message" := JStr msg]}
  end.

End Backend.

(** ** Browser client: frontend/src/App.js *)

Module Frontend.

(** The calls the component makes to the API. The path parameter of an
    update or delete is the text the template literal puts in the URL. *)
Inductive request : Type :=
| GET_tasks
| GET_server_info
| POST_tasks (title description : string)
| PUT_task (id : string) (completed : bool)
| DELETE_task (id : string).

(** What [await fetch(...)] followed by [await response.json()] gives a
    handler. [fetch] resolves whatever the HTTP status is. *)
Inductive reply : Type :=
| Rejected                                    (* fetch rejects: the request did not complete *)
| Replied (status : nat) (data : option json). (* data = None: the body is not JSON, response.json() rejects *)

Inductive effect : Type :=
| Fetch (r : request)
| ConsoleError (label : string).

Record AppState := {
  tasks : list json;
  serverInfo : option json;
  newTask : string * string;   (* { title, description } *)
  loading : bool
}.

(** JavaScript values read from a reply: [None] is [undefined]. *)
Abbreviation jsval := (option json).

(** [v.k] for a key that is no built-in member ([_id], [completed]).
    The outer [None] is the TypeError of reading a property of null. *)
Definition prop (v : json) (k : string) : option jsval :=
  match v with
  | JNull => None
  | JObj o => Some (o !! k)
  | _ => Some None
  end.

(** [a === b]. Two arrays or objects are equal only when they are one
    reference; values parsed from replies are primitives where the
    handlers compare them, and the model gives false otherwise. *)
Definition strictEq (a b : jsval) : bool :=
  match a, b with
  | None, None => true
  | Some JNull, Some JNull => true
  | Some (JBool x), Some (JBool y) => Bool.eqb x y
  | Some (JNum x), Some (JNum y) => (x =? y)%Z
  | Some (JStr x), Some (JStr y) => String.eqb x y
  | _, _ => false
  end.

Definition primitive (v : jsval) : bool :=
  match v with
  | Some (JArr _) | Some (JObj _) => false
  | _ => true
  end.

(** Truthiness, as [!v] reads it. *)
Definition truthy (v : jsval) : bool :=
  match v with
  | None | Some JNull => false
  | Some (JBool b) => b
  | Some (JNum n) => negb (n =? 0)%Z
  | Some (JStr s) => negb (String.eqb s EmptyString)
  | Some (JArr _) | Some (JObj _) => true
  end.

(** [String(v)], the conversion a template literal applies. *)
Fixpoint toString (v : json) : string :=
  match v with
  | JNull => "null"
  | JBool true => "true"
  | JBool false => "false"
  | JNum n => pretty n
  | JStr s => s
  | JArr l =>
      String.concat ","
        (map (fun x => match x with JNull => EmptyString | _ => toString x end) l)
  | JObj _ => "[object Object]"
  end.

Definition template (v : jsval) : string :=
  match v with
  | None => "undefined"
  | Some x => toString x
  end.

Definition setTasks (ts : list json) (st : AppState) : AppState :=
  {| tasks := ts; serverInfo := serverInfo st; newTask := newTask st; loading := loading st |}.

Definition setNewTask (t : string * string) (st : AppState) : AppState :=
  {| tasks := tasks st; serverInfo := serverInfo st; newTask := t; loading := loading st |}.

Definition setLoading (b : bool) (st : AppState) : AppState :=
  {| tasks := tasks st; serverInfo := serverInfo st; newTask := newTask st; loading := b |}.

(** [createTask]: the request it sends, then the handler run to its end
    on the reply. [tasks] is the list the handler closed over. *)
Definition createTask_request (st : AppState) : request :=
  POST_tasks (newTask st).1 (newTask st).2.

Definition createTask (st : AppState) (r : reply) : AppState * list effect :=
  let st1 := setLoading true st in
  match r with
  | Replied _ (Some data) =>
      (setLoading false (setNewTask (EmptyString, EmptyString) (setTasks (data :: tasks st) st1)),
       [Fetch (createTask_request st); Fetch GET_server_info])
  | _ =>
      (setLoading false st1,
       [Fetch (createTask_request st); ConsoleError "Error creating task:"])
  end.

(** [task._id] of an entry that is not null. *)
Definition idOf (task : json) : jsval :=
  match prop task "_id" with
  | Some v => v
  | None => None
  end.

(** [tasks.map(task => task._id === id ? data : task)]; [None] when
    reading [_id] throws. *)
Definition replaceById (id : jsval) (data : json) (ts : list json) : option (list json) :=
  mapM (fun task =>
          match prop task "_id" with
          | Some tid => Some (if strictEq tid id then data else task)
          | None => None
          end) ts.

Definition toggleTask_request (id completed : jsval) : request :=
  PUT_task (template id) (negb (truthy completed)).

Definition toggleTask (st : AppState) (id completed : jsval) (r : reply)
    : AppState * list effect :=
  match r with
  | Replied _ (Some data) =>
      match replaceById id data (tasks st) with
      | Some ts => (setTasks ts st, [Fetch (toggleTask_request id completed)])
      | None =>
          (st, [Fetch (toggleTask_request id completed);
                ConsoleError "Error updating task:"])
      end
  | _ =>
      (st, [Fetch (toggleTask_request id completed);
            ConsoleError "Error updating task:"])
  end.


Definition reachedCatch (es : list effect) : bool :=
  existsb (fun e => match e with ConsoleError _ => true | Fetch _ => false end) es.

(** *** The mount effect and the browser's interval timers

    Time is a clock in milliseconds; [sent] records each request with
    the time it was issued, oldest first. *)
Inductive callback : Type :=
| FetchServerInfo.

Record Interval := {
  handle : nat;
  period : Z;
  due : Z;
  action : callback
}.

Record Browser := {
  clock : Z;
  intervals : list Interval;
  nextHandle : nat;
  sent : list (Z * request)
}.

Definition send (r : request) (b : Browser) : Browser :=
  {| clock := clock b; intervals := intervals b; nextHandle := nextHandle b;
     sent := sent b ++ [(clock b, r)] |}.

Definition fetchTasks (b : Browser) : Browser := send GET_tasks b.
Definition fetchServerInfo (b : Browser) : Browser := send GET_server_info b.

Definition call (cb : callback) (b : Browser) : Browser :=
  match cb with
  | FetchServerInfo => fetchServerInfo b
  end.

Definition setInterval (cb : callback) (delay : Z) (b : Browser) : nat * Browser :=
  (nextHandle b,
   {| clock := clock b;
      intervals := intervals b ++
        [{| handle := nextHandle b; period := delay; due := clock b + delay; action := cb |}];
      nextHandle := S (nextHandle b);
      sent := sent b |}).

Definition clearInterval (h : nat) (b : Browser) : Browser :=
  {| clock := clock b;
     intervals := filter (fun i => handle i ≠ h) (intervals b);
     nextHandle := nextHandle b;
     sent := sent b |}.

Definition reschedule (i : Interval) : Interval :=
  {| handle := handle i; period := period i; due := due i + period i; action := action i |}.

(** One interval at the current time: when it is due it is put back for
    its next period and its callback runs. *)
Definition fire (b : Browser) (i : Interval) : Browser :=
  if decide (due i ≤ clock b)%Z
  then call (action i)
         {| clock := clock b;
            intervals := (fun j => if decide (handle j = handle i) then reschedule j else j)
                           <$> intervals b;
            nextHandle := nextHandle b;
            sent := sent b |}
  else b.

(** One millisecond passes. *)
Definition tick (b : Browser) : Browser :=
  let b' := {| clock := clock b + 1; intervals := intervals b;
               nextHandle := nextHandle b; sent := sent b |} in
  foldl fire b' (intervals b').

Definition run (ms : nat) (b : Browser) : Browser := Nat.iter ms tick b.

(** The body of [useEffect(..., [])], run once after the first render;
    the function it returns runs when the component unmounts. *)
Definition App_effect (b : Browser) : Browser * (Browser -> Browser) :=
  let b1 := fetchTasks b in
  let b2 := fetchServerInfo b1 in
  let '(interval, b3) := setInterval FetchServerInfo 10000 b2 in
  (b3, clearInterval interval).

(** A page that has just loaded at time [t0]. *)
Definition freshPage (t0 : Z) : Browser :=
  {| clock := t0; intervals := []; nextHandle := 0; sent := [] |}.

(** The number of whole 10-second periods in [n] milliseconds. *)
Definition periods (n : nat) : nat := Z.to_nat (Z.of_nat n / 10000).

(** The requests sent up to [n] milliseconds after a mount at [t0]. *)
Definition pollsUntil (t0 : Z) (n : nat) : list (Z * request) :=
  [(t0, GET_tasks); (t0, GET_server_info)]
  ++ ((fun k => ((t0 + 10000 * Z.of_nat k)%Z, GET_server_info))
        <$> seq 1 (periods n)).

End Frontend.

(** ** Provisioning: the target group of aws-setup.sh *)

Module AwsSetup.

Definition AWS_REGION : string := "us-east-1".

(** An unquoted [$NAME] on a command line whose value holds no blank:
    one word, or none when the value is empty. *)
Definition word (v : string) : list string :=
  match v with
  | EmptyString => []
  | _ => [v]
  end.

(** The words of the [aws elbv2 create-target-group] call of step 7;
    [VPC_ID] is the identifier step 1 read back. *)
Definition create_target_group (VPC_ID : string) : list string :=
  [ "aws"; "elbv2"; "create-target-group";
    "--name"; "backend-tg";
    "--protocol"; "HTTP";
    "--port"; "5000";
    "--vpc-id" ] ++ word VPC_ID ++
  [ "--health-check-enabled";
    "--health-check-protocol"; "HTTP";
    "--health-check-path"; "/health";
    "--health-check-interval-seconds"; "30";
    "--health-check-timeout-seconds"; "5";
    "--healthy-threshold-count"; "2";
    "--unhealthy-threshold-count"; "3";
    "--region" ] ++ word AWS_REGION ++
  [ "--query"; "TargetGroups[0].TargetGroupArn";
    "--output"; "text" ].

Definition isOption (w : string) : bool :=
  match w with
  | String "-" (String "-" _) => true
  | _ => false
  end.

(** The options of the command that take no value. *)
Definition isSwitch (w : string) : bool :=
  String.eqb w "--health-check-enabled" || String.eqb w "--no-health-check-enabled".

(** The command line as the tool reads it: each option with the word
    that follows it as its value. *)
Fixpoint options (argv : list string) : list (string * option string) :=
  match argv with
  | [] => []
  | w :: rest =>
      if isOption w then
        if isSwitch w then (w, None) :: options rest
        else match rest with
             | v :: rest' => (w, Some v) :: options rest'
             | [] => [(w, None)]
             end
      else options rest
  end.

Fixpoint optionValue (name : string) (opts : list (string * option string)) : option string :=
  match opts with
  | [] => None
  | (n, v) :: rest => if String.eqb n name then v else optionValue name rest
  end.

Definition digitValue (c : ascii) : option N :=
  let n := N_of_ascii c in
  if ((48 <=? n) && (n <=? 57))%N then Some (n - 48)%N else None.

Fixpoint decimalFrom (s : string) (acc : N) : option N :=
  match s with
  | EmptyString => Some acc
  | String c s' =>
      match digitValue c with
      | Some d => decimalFrom s' (10 * acc + d)%N
      | None => None
      end
  end.

Definition decimal (s : string) : option N :=
  match s with
  | EmptyString => None
  | _ => decimalFrom s 0
  end.

Record TargetGroup := {
  tg_protocol : string;
  tg_port : N;
  healthCheckProtocol : string;
  healthCheckPath : string;
  healthCheckIntervalSeconds : N;
  healthCheckTimeoutSeconds : N;
  healthyThresholdCount : N;
  unhealthyThresholdCount : N
}.

(** The target group a command line asks for. *)
Definition targetGroupOf (argv : list string) : option TargetGroup :=
  let opts := options argv in
  proto ← optionValue "--protocol" opts;
  port ← optionValue "--port" opts ≫= decimal;
  hcProto ← optionValue "--health-check-protocol" opts;
  path ← optionValue "--health-check-path" opts;
  interval ← optionValue "--health-check-interval-seconds" opts ≫= decimal;
  timeout ← optionValue "--health-check-timeout-seconds" opts ≫= decimal;
  healthy ← optionValue "--healthy-threshold-count" opts ≫= decimal;
  unhealthy ← optionValue "--unhealthy-threshold-count" opts ≫= decimal;
  Some {| tg_protocol := proto; tg_port := port;
          healthCheckProtocol := hcProto; healthCheckPath := path;
          healthCheckIntervalSeconds := interval;
          healthCheckTimeoutSeconds := timeout;
          healthyThresholdCount := healthy;
          unhealthyThresholdCount := unhealthy |}.

End AwsSetup.

(** ** A concrete library, to evaluate the model on inputs

    Identifiers are cast from 24 hexadecimal digits or from a string of
    twelve one-byte characters; dates are printed in the ISO 8601 form
    of [toISOString]. *)

Module Node.

Definition hexValue (c : ascii) : option N :=
  let n := N_of_ascii c in
  if ((48 <=? n) && (n <=? 57))%N then Some (n - 48)%N
  else if ((97 <=? n) && (n <=? 102))%N then Some (n - 87)%N
  else if ((65 <=? n) && (n <=? 70))%N then Some (n - 55)%N
  else None.

Fixpoint parseHex (s : string) (acc : N) : option N :=
  match s with
  | EmptyString => Some acc
  | String c s' =>
      match hexValue c with
      | Some d => parseHex s' (16 * acc + d)%N
      | None => None
      end
  end.

Definition quote : string := String (ascii_of_nat 34) EmptyString.

Definition castErrorMessage (s : string) : string :=
  "Cast to ObjectId failed for value " +:+ quote +:+ s +:+ quote
  +:+ " (type string) at path " +:+ quote +:+ "_id" +:+ quote
  +:+ " for model " +:+ quote +:+ "Task" +:+ quote.

(** The twelve bytes of a string of twelve one-byte characters. *)
Fixpoint parseBytes (s : string) (acc : N) : option N :=
  match s with
  | EmptyString => Some acc
  | String c s' =>
      if (N_of_ascii c <? 128)%N
      then parseBytes s' (256 * acc + N_of_ascii c)%N
      else None
  end.

Definition castObjectId (s : string) : string + N :=
  if (String.length s =? 24)%nat
  then match parseHex s 0 with
       | Some n => inr n
       | None => inl (castErrorMessage s)
       end
  else if (String.length s =? 12)%nat
  then match parseBytes s 0 with
       | Some n => inr n
       | None => inl (castErrorMessage s)
       end
  else inl (castErrorMessage s).

Fixpoint digits (k : nat) (n : Z) (acc : string) : string :=
  match k with
  | O => acc
  | S k' => digits k' (n / 10)%Z
              (String (ascii_of_nat (48 + Z.to_nat (n mod 10)%Z)) acc)
  end.

(** Year, month and day of a day count from 1970-01-01. *)
Definition civil (days : Z) : Z * Z * Z :=
  (let z := days + 719468 in
   let era := z / 146097 in
   let doe := z - era * 146097 in
   let yoe := (doe - doe / 1460 + doe / 36524 - doe / 146096) / 365 in
   let doy := doe - (365 * yoe + yoe / 4 - yoe / 100) in
   let mp := (5 * doy + 2) / 153 in
   let d := doy - (153 * mp + 2) / 5 + 1 in
   let m := if mp <? 10 then mp + 3 else mp - 9 in
   let y := yoe + era * 400 + (if m <=? 2 then 1 else 0) in
   (y, m, d))%Z.

Definition year (y : Z) : string :=
  if ((0 <=? y) && (y <=? 9999))%Z then digits 4 y EmptyString
  else if (y <? 0)%Z then String "-" (digits 6 (- y) EmptyString)
  else String "+" (digits 6 y EmptyString).

Definition toISOString (ms : Z) : string :=
  (let '(y, m, d) := civil (ms / 86400000) in
   let r := ms mod 86400000 in
   year y +:+ "-" +:+ digits 2 m EmptyString +:+ "-" +:+ digits 2 d EmptyString
   +:+ "T" +:+ digits 2 (r / 3600000) EmptyString
   +:+ ":" +:+ digits 2 (r / 60000 mod 60) EmptyString
   +:+ ":" +:+ digits 2 (r / 1000 mod 60) EmptyString
   +:+ "." +:+ digits 3 (r mod 1000) EmptyString +:+ "Z")%Z.

Definition lib : Backend.Lib :=
  {| Backend.castObjectId := castObjectId;
     Backend.toISOString := toISOString |}.

End Node.

(** ** The client against the backend *)

Module System.
Import Backend Frontend.

Definition noPaths : Paths :=
  {| p_id := Absent; p_title := Absent; p_description := Absent;
     p_completed := Absent; p_createdAt := Absent;
     p_serverHostname := Absent; p_serverIp := Absent |}.

(** The body [{ title }], read through the schema. *)
Definition titleOnly (t : string) : Paths :=
  {| p_id := Absent; p_title := Val t; p_description := Absent;
     p_completed := Absent; p_createdAt := Absent;
     p_serverHostname := Absent; p_serverIp := Absent |}.

(** The body [{ completed: c }] of a toggle, read through the schema. *)
Definition completedOnly (c : bool) : Paths :=
  {| p_id := Absent; p_title := Absent; p_description := Absent;
     p_completed := Val c; p_createdAt := Absent;
     p_serverHostname := Absent; p_serverIp := Absent |}.

(** The backend's response as the client's [fetch] receives it. *)
Definition transport (lib : Lib) (resp : response) : reply :=
  Replied (status resp) (Some (wire lib (body resp))).


End System.

(** ** Sample inputs *)

Module Sample.
Import Backend.

Definition env : Env :=
  {| hostname := "ip-10-0-3-17";
     networkInterfaces :=
       [("lo", [{| family := "IPv4"; internal := true; address := "127.0.0.1" |}]);
        ("eth0", [{| family := "IPv6"; internal := false; address := "fe80::1" |};
                  {| family := "IPv4"; internal := false; address := "10.0.3.17" |}])];
     now := 1700000000000%Z;
     newObjectId := 7%N;
     dbError := None |}.

Definition downEnv : Env :=
  {| hostname := hostname env;
     networkInterfaces := networkInterfaces env;
     now := now env;
     newObjectId := newObjectId env;
     dbError := Some "connect ECONNREFUSED 10.0.3.5:27017" |}.

Definition task : Task :=
  {| title := Has "Buy milk"; description := Missing; completed := Has false;
     createdAt := Has 1600000000000%Z;
     serverHostname := Has "ip-10-0-3-9"; serverIp := Has "10.0.3.9" |}.

Definition store : Store := {[ 1%N := task ]}.

(** The text of the identifier of [task], and of one no record has. *)
Definition oid1 : string := "000000000000000000000001".
Definition oid2 : string := "000000000000000000000002".

(** The client's state with [task] listed and a new title typed in. *)
Definition listed : json := toJSON Node.lib (1%N, task).

Definition appState : Frontend.AppState :=
  {| Frontend.tasks := [listed];
     Frontend.serverInfo := None;
     Frontend.newTask := ("Walk the dog", "before noon");
     Frontend.loading := false |}.

Definition errorBody : json :=
  JObj {[ "error" := JStr "Task validation failed: title: Path `title` is required." ]}.

(** A second record, created later, and one that holds no createdAt (as
    an update with [$unset] or another writer of the collection leaves
    it). *)
Definition laterTask : Task :=
  {| title := Has "Walk the dog"; description := Has "before noon";
     completed := Has true; createdAt := Has 1650000000000%Z;
     serverHostname := Has "ip-10-0-3-17"; serverIp := Has "10.0.3.17" |}.

Definition undatedTask : Task :=
  {| title := Has "Call mum"; description := Missing; completed := Has false;
     createdAt := Missing;
     serverHostname := Has "ip-10-0-3-9"; serverIp := Has "10.0.3.9" |}.

Definition store2 : Store := <[2%N := laterTask]> store.

Definition store3 : Store := <[3%N := undatedTask]> store2.

(** The client's state with both records of [store2] listed. *)
Definition listedLater : json := toJSON Node.lib (2%N, laterTask).

Definition appState2 : Frontend.AppState :=
  {| Frontend.tasks := [listedLater; listed];
     Frontend.serverInfo := None;
     Frontend.newTask := ("Walk the dog", "before noon");
     Frontend.loading := false |}.




(** A create body that also carries the server-assigned fields. *)
Definition forgedBody : Paths :=
  {| p_id := Absent; p_title := Val "Buy milk"; p_description := Absent;
     p_completed := Absent; p_createdAt := Val 0%Z;
     p_serverHostname := Val "elsewhere"; p_serverIp := Val "203.0.113.9" |}.

Definition forgedTask : Task :=
  {| title := Has "Buy milk"; description := Missing; completed := Has false;
     createdAt := Has 0%Z;
     serverHostname := Has "ip-10-0-3-17"; serverIp := Has "10.0.3.17" |}.

End Sample.

(** ** Backend: the health and server-info routes

    [number] is the type of the JavaScript numbers the routes pass on
    as they get them ([process.uptime()], seconds with a fraction). *)

Module Diagnostics.
Import Backend.

Record Process (number : Type) := {
  uptime : number;     (* process.uptime() *)
  platform : string;   (* os.platform() *)
  totalmem : N;        (* os.totalmem(), bytes *)
  freemem : N          (* os.freemem(), bytes *)
}.
Arguments uptime {number}.
Arguments platform {number}.
Arguments totalmem {number}.
Arguments freemem {number}.

Record HealthCheck (number : Type) := {
  h_uptime : number;
  h_message : string;
  h_timestamp : Z;
  h_hostname : string;
  h_ip : string
}.
Arguments h_uptime {number}.
Arguments h_message {number}.
Arguments h_timestamp {number}.
Arguments h_hostname {number}.
Arguments h_ip {number}.

Record Memory := {
  total : N;
  free : N
}.

Record ServerInfo (number : Type) := {
  s_hostname : string;
  s_ip : string;
  s_platform : string;
  s_uptime : number;
  s_memory : Memory
}.
Arguments s_hostname {number}.
Arguments s_ip {number}.
Arguments s_platform {number}.
Arguments s_uptime {number}.
Arguments s_memory {number}.

(** [Math.round(bytes / 1024 / 1024)] for a byte count: the two
    divisions by a power of two are exact, and [Math.round] takes the
    nearest integer, a half going up. *)
Definition megabytes (bytes : N) : N := ((bytes + 524288) / 1048576)%N.

(** [app.get('/health')] *)
Definition health {number : Type} (env : Env) (p : Process number)
    : nat * HealthCheck number :=
  (200,
   {| h_uptime := uptime p;
      h_message := "OK";
      h_timestamp := now env;
      h_hostname := hostname env;
      h_ip := getServerIp env |}).

(** [app.get('/api/server-info')] *)
Definition server_info {number : Type} (env : Env) (p : Process number)
    : nat * ServerInfo number :=
  (200,
   {| s_hostname := hostname env;
      s_ip := getServerIp env;
      s_platform := platform p;
      s_uptime := uptime p;
      s_memory := {| total := megabytes (totalmem p);
                     free := megabytes (freemem p) |} |}).

End Diagnostics.

(** ** Browser client: the list and delete handlers *)

Module Handlers.
Import Frontend.

(** [fetchTasks] run to its end on the reply: [setTasks(data)] with
    whatever JSON the body holds. [inr data] is the state in which
    [tasks] holds [data], a value that is no array. *)
Definition fetchTasks (st : AppState) (r : reply) : (AppState + json) * list effect :=
  match r with
  | Replied _ (Some (JArr l)) => (inl (setTasks l st), [Fetch GET_tasks])
  | Replied _ (Some data) => (inr data, [Fetch GET_tasks])
  | _ => (inl st, [Fetch GET_tasks; ConsoleError "Error fetching tasks:"])
  end.

Definition setServerInfo (v : option json) (st : AppState) : AppState :=
  {| tasks := tasks st; serverInfo := v; newTask := newTask st; loading := loading st |}.

(** [fetchServerInfo] run to its end on the reply. *)
Definition fetchServerInfo (st : AppState) (r : reply) : AppState * list effect :=
  match r with
  | Replied _ (Some data) => (setServerInfo (Some data) st, [Fetch GET_server_info])
  | _ => (st, [Fetch GET_server_info; ConsoleError "Error fetching server info:"])
  end.

(** [tasks.filter(task => task._id !== id)]; [None] when reading [_id]
    of an entry throws. *)
Fixpoint removeById (id : jsval) (ts : list json) : option (list json) :=
  match ts with
  | [] => Some []
  | task :: rest =>
      match prop task "_id" with
      | None => None
      | Some tid =>
          match removeById id rest with
          | None => None
          | Some rest' => Some (if negb (strictEq tid id) then task :: rest' else rest')
          end
      end
  end.

Definition deleteTask_request (id : jsval) : request :=
  DELETE_task (template id).

(** [deleteTask]: the reply's body is never read. *)
Definition deleteTask (st : AppState) (id : jsval) (r : reply) : AppState * list effect :=
  match r with
  | Replied _ _ =>
      match removeById id (tasks st) with
      | Some ts => (setTasks ts st, [Fetch (deleteTask_request id)])
      | None =>
          (st, [Fetch (deleteTask_request id); ConsoleError "Error deleting task:"])
      end
  | Rejected =>
      (st, [Fetch (deleteTask_request id); ConsoleError "Error deleting task:"])
  end.

(** The mount effect on a page in any state, [n] milliseconds on. *)
Definition mounted (b : Browser) (n : nat) : Browser := run n (App_effect b).1.

End Handlers.

(** ** The client against the backend: load, create, delete *)

Module Session.
Import Backend Frontend.

(** The body [{ title, description }] of the form, read through the
    schema. *)
Definition newTaskBody (t d : string) : Paths :=
  {| p_id := Absent; p_title := Val t; p_description := Val d;
     p_completed := Absent; p_createdAt := Absent;
     p_serverHostname := Absent; p_serverIp := Absent |}.

(** The list request of the mount effect and its answer. *)
Definition load (lib : Lib) (env : Env) (store : Store) (st : AppState)
    : AppState + json :=
  (Handlers.fetchTasks st (System.transport lib (get_tasks env store).1)).1.

(** Submitting the form. *)
Definition submit (lib : Lib) (env : Env) (s : Store * AppState) : Store * AppState :=
  match createTask_request s.2 with
  | POST_tasks t d =>
      let '(resp, store') := post_tasks env s.1 (newTaskBody t d) in
      (store', (createTask s.2 (System.transport lib resp)).1)
  | _ => s
  end.

(** A click on the delete button of the [k]-th rendered task:
    [onClick={() => deleteTask(task._id)}]. *)
Definition clickDelete (lib : Lib) (env : Env) (s : Store * AppState) (k : nat)
    : Store * AppState :=
  match tasks s.2 !! k with
  | None => s
  | Some task =>
      match prop task "_id" with
      | None => s
      | Some id =>
          match Handlers.deleteTask_request id with
          | DELETE_task idText =>
              let '(resp, store') := delete_task lib env s.1 idText in
              (store', (Handlers.deleteTask s.2 id (System.transport lib resp)).1)
          | _ => s
          end
      end
  end.

(** The client's list shows exactly the stored records, each as the
    backend answered it at some request. *)
Definition inSync (lib : Lib) (store : Store) (ts : list json) : Prop :=
  exists shown : list (Env * Doc),
    ts = (fun a => toJSON lib (hydrateDoc a.1 a.2)) <$> shown
    /\ shown.*2 ≡ₚ map_to_list store.

(** The cast reads the printed identifier of every stored record back. *)
Definition readsBack (lib : Lib) (store : Store) : Prop :=
  forall j t, store !! j = Some t -> castObjectId lib (toHexString j) = inr j.

End Session.

(** ** Provisioning: the configuration record and the database instance

    The end of aws-setup.sh writes aws-config.txt and the start of
    deploy-instances.sh sources it. Shell words are modelled where the
    shell takes them literally: a plain word is a non-empty run of
    letters, digits and the signs [_ . : / -], as resource identifiers,
    ARNs and DNS names are. *)

Module Deploy.

Record Config := {
  VPC_ID : string;
  IGW_ID : string;
  PUBLIC_SUBNET_1 : string;
  PUBLIC_SUBNET_2 : string;
  PRIVATE_SUBNET_1 : string;
  PRIVATE_SUBNET_2 : string;
  ALB_SG : string;
  BACKEND_SG : string;
  FRONTEND_SG : string;
  DB_SG : string;
  TARGET_GROUP_ARN : string;
  ALB_ARN : string;
  ALB_DNS : string;
  KEY_PAIR_NAME : string
}.

(** The lines of the here-document [cat > aws-config.txt << CONFIG],
    each variable expanded. *)
Definition configLines (c : Config) : list string :=
  [ "VPC_ID=" +:+ VPC_ID c;
    "IGW_ID=" +:+ IGW_ID c;
    "PUBLIC_SUBNET_1=" +:+ PUBLIC_SUBNET_1 c;
    "PUBLIC_SUBNET_2=" +:+ PUBLIC_SUBNET_2 c;
    "PRIVATE_SUBNET_1=" +:+ PRIVATE_SUBNET_1 c;
    "PRIVATE_SUBNET_2=" +:+ PRIVATE_SUBNET_2 c;
    "ALB_SG=" +:+ ALB_SG c;
    "BACKEND_SG=" +:+ BACKEND_SG c;
    "FRONTEND_SG=" +:+ FRONTEND_SG c;
    "DB_SG=" +:+ DB_SG c;
    "TARGET_GROUP_ARN=" +:+ TARGET_GROUP_ARN c;
    "ALB_ARN=" +:+ ALB_ARN c;
    "ALB_DNS=" +:+ ALB_DNS c;
    "KEY_PAIR_NAME=" +:+ KEY_PAIR_NAME c ].

Definition isLetter (n : N) : bool :=
  ((65 <=? n) && (n <=? 90) || (97 <=? n) && (n <=? 122))%N.

Definition isDigit (n : N) : bool := ((48 <=? n) && (n <=? 57))%N.

Definition plainChar (a : ascii) : bool :=
  let n := N_of_ascii a in
  isLetter n || isDigit n
  || (n =? 95)%N || (n =? 46)%N || (n =? 58)%N || (n =? 47)%N || (n =? 45)%N.

Fixpoint allPlain (s : string) : bool :=
  match s with
  | EmptyString => true
  | String a s' => plainChar a && allPlain s'
  end.

Definition plainWord (s : string) : bool :=
  match s with
  | EmptyString => false
  | _ => allPlain s
  end.

Definition nameChar (a : ascii) : bool :=
  let n := N_of_ascii a in isLetter n || isDigit n || (n =? 95)%N.

(** A line cut at its first equals sign, when what precedes it is made
    of name characters. *)
Fixpoint cutAtEquals (line : string) : option (string * string) :=
  match line with
  | EmptyString => None
  | String a rest =>
      if Ascii.eqb a "=" then Some (EmptyString, rest)
      else if nameChar a then
        match cutAtEquals rest with
        | Some (name, value) => Some (String a name, value)
        | None => None
        end
      else None
  end.

(** [source]: each line [NAME=word] with a plain word (or nothing) after
    the sign assigns the variable. [None] is a file with a line the
    shell would read otherwise (a command, a quoted or expanded word),
    which the model does not follow. *)
Fixpoint source (lines : list string) (vars : gmap string string)
    : option (gmap string string) :=
  match lines with
  | [] => Some vars
  | line :: rest =>
      match cutAtEquals line with
      | Some (String a name, value) =>
          if negb (isDigit (N_of_ascii a)) && allPlain value
          then source rest (<[String a name := value]> vars)
          else None
      | _ => None
      end
  end.

(** An unquoted [$NAME] on a command line: no word when the variable is
    unset or empty, the value when it is a plain word. *)
Definition expand (name : string) (vars : gmap string string) : list string :=
  match vars !! name with
  | Some EmptyString | None => []
  | Some v => [v]
  end.

(** deploy-instances.sh up to the launch of the database instance: the
    variables after [source aws-config.txt] and the script's own three
    assignments. *)
Definition deployVars (configFile : list string) : option (gmap string string) :=
  match source configFile ∅ with
  | Some vars =>
      Some (<["INSTANCE_TYPE" := "t3.micro"]>
           (<["AMI_ID" := "ami-0c55b159cbfafe1f0"]>
           (<["AWS_REGION" := "us-east-1"]> vars)))
  | None => None
  end.

(** The words of [aws ec2 run-instances] for the database instance. *)
Definition run_instances_db (vars : gmap string string) : list string :=
  ["aws"; "ec2"; "run-instances"; "--image-id"] ++ expand "AMI_ID" vars
  ++ ["--instance-type"; "t3.small"; "--key-name"] ++ expand "KEY_PAIR_NAME" vars
  ++ ["--security-group-ids"] ++ expand "DB_SG" vars
  ++ ["--subnet-id"] ++ expand "PRIVATE_SUBNET_1" vars
  ++ ["--user-data"; "file://db-user-data.sh";
      "--tag-specifications";
      "ResourceType=instance,Tags=[{Key=Name,Value=mongodb-server}]";
      "--region"] ++ expand "AWS_REGION" vars
  ++ ["--query"; "Instances[0].InstanceId"; "--output"; "text"].

(** Every field of the record is a plain word. *)
Definition plainConfig (c : Config) : bool :=
  plainWord (VPC_ID c) && plainWord (IGW_ID c)
  && plainWord (PUBLIC_SUBNET_1 c) && plainWord (PUBLIC_SUBNET_2 c)
  && plainWord (PRIVATE_SUBNET_1 c) && plainWord (PRIVATE_SUBNET_2 c)
  && plainWord (ALB_SG c) && plainWord (BACKEND_SG c)
  && plainWord (FRONTEND_SG c) && plainWord (DB_SG c)
  && plainWord (TARGET_GROUP_ARN c) && plainWord (ALB_ARN c)
  && plainWord (ALB_DNS c) && plainWord (KEY_PAIR_NAME c).

(** The variables a record assigns. *)
Definition configVars (c : Config) : list (string * string) :=
  [ ("VPC_ID", VPC_ID c); ("IGW_ID", IGW_ID c);
    ("PUBLIC_SUBNET_1", PUBLIC_SUBNET_1 c); ("PUBLIC_SUBNET_2", PUBLIC_SUBNET_2 c);
    ("PRIVATE_SUBNET_1", PRIVATE_SUBNET_1 c); ("PRIVATE_SUBNET_2", PRIVATE_SUBNET_2 c);
    ("ALB_SG", ALB_SG c); ("BACKEND_SG", BACKEND_SG c);
    ("FRONTEND_SG", FRONTEND_SG c); ("DB_SG", DB_SG c);
    ("TARGET_GROUP_ARN", TARGET_GROUP_ARN c); ("ALB_ARN", ALB_ARN c);
    ("ALB_DNS", ALB_DNS c); ("KEY_PAIR_NAME", KEY_PAIR_NAME c) ].

Definition sampleConfig : Config :=
  {| VPC_ID := "vpc-0a1b2c3d";
     IGW_ID := "igw-0f9e8d7c";
     PUBLIC_SUBNET_1 := "subnet-01";
     PUBLIC_SUBNET_2 := "subnet-02";
     PRIVATE_SUBNET_1 := "subnet-03";
     PRIVATE_SUBNET_2 := "subnet-04";
     ALB_SG := "sg-0a";
     BACKEND_SG := "sg-0b";
     FRONTEND_SG := "sg-0c";
     DB_SG := "sg-0d";
     TARGET_GROUP_ARN :=
       "arn:aws:elasticloadbalancing:us-east-1:123456789012:targetgroup/backend-tg/73e2d6bc24d8a067";
     ALB_ARN :=
       "arn:aws:elasticloadbalancing:us-east-1:123456789012:loadbalancer/app/backend-alb/50dc6c495c0c9188";
     ALB_DNS := "backend-alb-1234567890.us-east-1.elb.amazonaws.com";
     KEY_PAIR_NAME := "fullstack-key" |}.

End Deploy.

(** ** Notions the further properties are stated with *)

Module Notions.
Import Backend.

(** The test of [getServerIp] on one interface record. *)
Definition externalIPv4 (i : Iface) : bool :=
  String.eqb (family i) "IPv4" && negb (internal i).

(** The createdAt [a] of one record is no earlier than the createdAt [b]
    of another; a record that stores no date (the key missing or null)
    counts as earlier than every dated one. *)
Definition notEarlier (a b : slot Z) : Prop :=
  match a, b with
  | Has x, Has y => (y <= x)%Z
  | Has _, _ => True
  | _, Has _ => False
  | _, _ => True
  end.

(** The createdAt [a] is a date, and later than [b]. *)
Definition later (a b : slot Z) : Prop :=
  match a, b with
  | Has x, Has y => (y < x)%Z
  | Has _, _ => True
  | _, _ => False
  end.

(** The document [a] is the stored record [d] as a query at [env]
    answers it: the same identifier and paths, with false for a
    completed flag the record lacks and the time of the request for a
    createdAt it lacks. *)
Definition answeredAs (env : Env) (d a : Doc) : Prop :=
  a.1 = d.1
  /\ title a.2 = title d.2
  /\ description a.2 = description d.2
  /\ serverHostname a.2 = serverHostname d.2
  /\ serverIp a.2 = serverIp d.2
  /\ completed a.2 = match completed d.2 with
                     | Missing => Has false
                     | c => c
                     end
  /\ createdAt a.2 = match createdAt d.2 with
                     | Missing => Has (now env)
                     | c => c
                     end.

(** The list [ts'] is the list [ts] without the entries whose [_id] is
    [id], the other entries in their order. *)
Inductive without (id : Frontend.jsval) : list json -> list json -> Prop :=
| without_nil : without id [] []
| without_drop (task : json) (ts ts' : list json) :
    Frontend.prop task "_id" = Some id ->
    without id ts ts' -> without id (task :: ts) ts'
| without_keep (task : json) (ts ts' : list json) :
    Frontend.prop task "_id" <> Some id ->
    without id ts ts' -> without id (task :: ts) (task :: ts').


End Notions.

(** * Properties *)

Import Backend.
Import Notions.

(** ** The list of tasks *)

#[local] Instance newerFirst_total : Total newerFirst.
Proof.
  intros [i1 t1] [i2 t2]. unfold newerFirst, dateLeb. cbn [snd].
  destruct (sortKey (createdAt t1)) as [x|], (sortKey (createdAt t2)) as [y|]; auto.
  destruct (Z.leb_spec y x), (Z.leb_spec x y); auto; lia.
Qed.

#[local] Instance newerFirst_trans : Transitive newerFirst.
Proof.
  intros [i1 t1] [i2 t2] [i3 t3]. unfold newerFirst, dateLeb. cbn [snd].
  destruct (sortKey (createdAt t1)), (sortKey (createdAt t2)),
    (sortKey (createdAt t3)); auto; try discriminate.
  rewrite !Z.leb_le. lia.
Qed.

Lemma find_sort_ok (env : Env) (store : Store) :
  dbError env = None ->
  exists sorted,
    find_sort env store = inr (hydrateDoc env <$> sorted)
    /\ sorted ≡ₚ map_to_list store
    /\ StronglySorted newerFirst sorted.
Proof.
  intros Hdb. unfold find_sort. rewrite Hdb. eexists. split; [reflexivity|].
  split.
  - apply merge_sort_Permutation.
  - apply StronglySorted_merge_sort; apply _.
Qed.

Lemma sorted_pairs {A} (R : relation A) (l : list A) :
  StronglySorted R l ->
  forall i j x y, i < j -> l !! i = Some x -> l !! j = Some y -> R x y.
Proof.
  induction 1 as [|a l Hs IH Hall]; intros i j x y Hij Hi Hj.
  - rewrite lookup_nil in Hi. discriminate.
  - destruct j as [|j]; [lia|]. cbn in Hj. destruct i as [|i].
    + cbn in Hi. injection Hi as <-.
      rewrite Forall_forall in Hall. apply Hall.
      eapply list_elem_of_lookup_2; eauto.
    + cbn in Hi. apply (IH i j); [lia | assumption | assumption].
Qed.

Lemma newerFirst_notEarlier (d1 d2 : Doc) :
  newerFirst d1 d2 -> notEarlier (createdAt d1.2) (createdAt d2.2).
Proof.
  unfold newerFirst, notEarlier, dateLeb, sortKey.
  destruct (createdAt d1.2), (createdAt d2.2); try discriminate; auto.
  apply Z.leb_le.
Qed.

Lemma hydrateDoc_answeredAs (env : Env) (d : Doc) :
  answeredAs env d (hydrateDoc env d).
Proof.
  destruct d as [i t]. unfold answeredAs, hydrateDoc, hydrate, orDefault. cbn.
  repeat split; [destruct (completed t) | destruct (createdAt t)]; reflexivity.
Qed.

(** The answer of the query: the stored records in the order of their
    stored dates, each as a query answers it. *)
Lemma find_sort_listed (env : Env) (store : Store) :
  dbError env = None ->
  exists sorted docs,
    find_sort env store = inr docs
    /\ sorted ≡ₚ map_to_list store
    /\ Forall2 (answeredAs env) sorted docs
    /\ forall i j d1 d2,
         i < j -> sorted !! i = Some d1 -> sorted !! j = Some d2 ->
         notEarlier (createdAt d1.2) (createdAt d2.2).
Proof.
  intros Hdb. destruct (find_sort_ok env store Hdb) as (sorted & Hf & Hp & Hs).
  exists sorted, (hydrateDoc env <$> sorted).
  split; [exact Hf|]. split; [exact Hp|]. split.
  - apply Forall2_fmap_r, Forall_Forall2_diag, Forall_true.
    apply hydrateDoc_answeredAs.
  - intros i j d1 d2 Hij H1 H2. apply newerFirst_notEarlier.
    eapply sorted_pairs; eauto.
Qed.

(** C7, as the code has it. GET /api/tasks: when the store answers, the
    status is 200 and the body holds one document for every stored
    record, in the order of the createdAt the records store, latest
    first, a record that stores none (or null) after all dated ones;
    each document has the paths of its record, with false for a
    completed flag and the time of the request for a createdAt that the
    record lacks. When the store fails with a message, the status is 500
    and the body is [{ error: message }]. The store is not changed. *)
Theorem get_tasks_sorted_by_stored_date (env : Env) (store : Store) :
  match dbError env with
  | None =>
      exists sorted docs,
        get_tasks env store = ({| status := 200; body := OfTasks docs |}, store)
        /\ sorted ≡ₚ map_to_list store
        /\ Forall2 (answeredAs env) sorted docs
        /\ forall i j d1 d2,
             i < j -> sorted !! i = Some d1 -> sorted !! j = Some d2 ->
             notEarlier (createdAt d1.2) (createdAt d2.2)
  | Some msg =>
      get_tasks env store = ({| status := 500; body := OfError msg |}, store)
  end.
Proof.
  destruct (dbError env) as [msg|] eqn:Hdb.
  - unfold get_tasks, find_sort. rewrite Hdb. reflexivity.
  - destruct (find_sort_listed env store Hdb) as (sorted & docs & Hf & H).
    exists sorted, docs. unfold get_tasks. rewrite Hf. auto.
Qed.

(** C7, as stated, fails: with two dated records and one that stores no
    createdAt, the answer lists the later record before the earlier one
    and the undated one last, and gives the undated one the time of the
    request as its createdAt, later than both: the createdAt values of
    the answer are not in descending order. *)
Lemma get_tasks_undated_last :
  get_tasks Sample.env Sample.store3
  = ({| status := 200;
        body := OfTasks
          [ (2%N, Sample.laterTask);
            (1%N, Sample.task);
            (3%N, {| title := Has "Call mum"; description := Missing;
                     completed := Has false;
                     createdAt := Has 1700000000000%Z;
                     serverHostname := Has "ip-10-0-3-9";
                     serverIp := Has "10.0.3.9" |}) ] |},
     Sample.store3)
  /\ createdAt Sample.laterTask = Has 1650000000000%Z
  /\ createdAt Sample.task = Has 1600000000000%Z
  /\ Sample.store3 !! 3%N = Some Sample.undatedTask
  /\ createdAt Sample.undatedTask = Missing
  /\ (1650000000000 < 1700000000000)%Z.
Proof. repeat split. Qed.
(** ** Creating a task *)

Lemma validationErrors_title (doc : Paths) :
  validationErrors doc = [] ->
  exists t, p_title doc = Val t /\ t <> EmptyString.
Proof.
  unfold validationErrors. intros H.
  apply app_nil in H as [_ H]. apply app_nil in H as [Hc H].
  do 5 (apply app_nil in H as [_ H]).
  destruct (p_title doc) as [| | t |]; try discriminate.
  exists t. split; [reflexivity|]. intros ->. discriminate.
Qed.

Lemma post_tasks_rejects (env : Env) (store : Store) (body : Paths) :
  validationErrors (Task_new env (spreadWithServer body (hostname env) (getServerIp env))) <> [] ->
  exists msg,
    post_tasks env store body = ({| status := 400; body := OfError msg |}, store).
Proof.
  intros H. unfold post_tasks, save.
  destruct (validationErrors _) as [|e errs]; [congruence|]. eauto.
Qed.

(** A title that is missing, null or empty fails the required
    validator, whatever else the body holds and whatever the state of
    the store. *)
Lemma post_untitled_rejected (env : Env) (store : Store) (body : Paths) :
  p_title body = Absent \/ p_title body = Null \/ p_title body = Val EmptyString ->
  exists msg,
    post_tasks env store body = ({| status := 400; body := OfError msg |}, store).
Proof.
  intros Ht. apply post_tasks_rejects. intros H.
  apply validationErrors_title in H as (t & H & Hne).
  simpl in H. destruct Ht as [Ht | [Ht | Ht]]; congruence.
Qed.

(** C5. A create request whose body has no title is answered with
    status 400 and a body [{ error: message }], and the store after the
    request is the store before it. *)
Theorem post_without_title_rejected (env : Env) (store : Store) (body : Paths) :
  p_title body = Absent ->
  exists msg,
    post_tasks env store body = ({| status := 400; body := OfError msg |}, store).
Proof. intros Ht. apply post_untitled_rejected. auto. Qed.

Lemma post_without_title_rejected_witness :
  p_title (System.completedOnly true) = Absent
  /\ exists msg,
       post_tasks Sample.env Sample.store (System.completedOnly true)
       = ({| status := 400; body := OfError msg |}, Sample.store).
Proof.
  split; [reflexivity|].
  apply (post_without_title_rejected Sample.env Sample.store (System.completedOnly true)).
  reflexivity.
Defined.







Lemma validationErrors_createdAt (doc : Paths) (reason : string) :
  validationErrors doc = [] -> p_createdAt doc <> Invalid reason.
Proof.
  unfold validationErrors. intros H E. rewrite E in H.
  do 4 (apply app_nil in H as [_ H]). apply app_nil in H as [H _].
  discriminate.
Qed.

Lemma post_tasks_created (env : Env) (store store' : Store) (body : Paths) (doc : Doc) :
  post_tasks env store body
  = ({| status := 201; body := OfTask (Some doc) |}, store') ->
  validationErrors (Task_new env (spreadWithServer body (hostname env) (getServerIp env))) = []
  /\ doc.2 = toTask (Task_new env (spreadWithServer body (hostname env) (getServerIp env)))
  /\ store' = <[doc.1 := doc.2]> store.
Proof.
  unfold post_tasks, save.
  destruct (validationErrors _) as [|e errs]; [|discriminate].
  destruct (p_id _) as [| | id |]; try discriminate.
  destruct (dbError env); [discriminate|].
  destruct (store !! id); [discriminate|].
  intros [= <- <-]. auto.
Qed.

(** C2, as the code has it. For every create request that persists a
    record, the stored serverHostname and serverIp are the handling
    host's name and address whatever the body holds for them; the stored
    createdAt is the server's clock reading when the body has no
    createdAt, and is what the body supplies (a date, or null) when it
    has one. *)
Theorem post_server_assigned_fields
    (env : Env) (store store' : Store) (body : Paths) (doc : Doc) :
  post_tasks env store body
  = ({| status := 201; body := OfTask (Some doc) |}, store') ->
  store' !! doc.1 = Some doc.2
  /\ serverHostname doc.2 = Has (hostname env)
  /\ serverIp doc.2 = Has (getServerIp env)
  /\ match p_createdAt body with
     | Absent => createdAt doc.2 = Has (now env)
     | Val d => createdAt doc.2 = Has d
     | Null => createdAt doc.2 = IsNull
     | Invalid _ => False
     end.
Proof.
  intros H. destruct doc as [i t].
  apply post_tasks_created in H as (Hv & Ht & ->). simpl in Ht. subst t.
  split; [apply lookup_insert_eq|]. do 2 (split; [reflexivity|]).
  pose proof (fun r => validationErrors_createdAt _ r Hv) as Hc.
  simpl in Hc |- *.
  destruct (p_createdAt body) as [| | d | reason]; simpl in *; try reflexivity.
  exact (Hc reason eq_refl).
Qed.

Lemma post_server_assigned_fields_witness :
  <[7%N := Sample.forgedTask]> Sample.store !! 7%N = Some Sample.forgedTask
  /\ serverHostname Sample.forgedTask = Has (hostname Sample.env)
  /\ serverIp Sample.forgedTask = Has (getServerIp Sample.env)
  /\ createdAt Sample.forgedTask = Has 0%Z.
Proof.
  apply (post_server_assigned_fields Sample.env Sample.store
           (<[7%N := Sample.forgedTask]> Sample.store) Sample.forgedBody (7%N, Sample.forgedTask)).
  reflexivity.
Defined.

(** C2, as stated, fails: a create request whose body carries
    [createdAt: 0] is answered 201 and the persisted record's createdAt
    is the epoch the client sent, not the server's clock reading. *)
Lemma post_createdAt_from_body :
  post_tasks Sample.env Sample.store Sample.forgedBody
  = ({| status := 201; body := OfTask (Some (7%N, Sample.forgedTask)) |},
     <[7%N := Sample.forgedTask]> Sample.store)
  /\ createdAt Sample.forgedTask = Has 0%Z
  /\ now Sample.env = 1700000000000%Z
  /\ createdAt Sample.forgedTask <> Has (now Sample.env).
Proof. repeat split; try reflexivity. discriminate. Qed.

(** ** Deleting a task *)

Lemma find_sort_elem_of (env : Env) (store : Store) (docs : list Doc) (d : Doc) :
  find_sort env store = inr docs ->
  d ∈ docs <-> exists t, store !! d.1 = Some t /\ d.2 = hydrate env t.
Proof.
  unfold find_sort. destruct (dbError env); [discriminate|]. intros [= <-].
  rewrite list_elem_of_fmap. destruct d as [i t']. simpl. split.
  - intros ([j t] & [= -> ->] & Hin). exists t. split; [|reflexivity].
    rewrite merge_sort_Permutation in Hin. apply elem_of_map_to_list in Hin.
    exact Hin.
  - intros (t & Hl & ->). exists (i, t). split; [reflexivity|].
    rewrite merge_sort_Permutation. apply elem_of_map_to_list. exact Hl.
Qed.

(** C1, as the code has it. A delete request whose identifier is
    well-formed, on a reachable store, is answered with status 200 and
    [{ message: 'Task deleted' }] whether or not a record has the
    identifier. The record with that identifier, if any, is gone from
    every later list and all other records are still listed, each as a
    query answers the record stored; when no record has the identifier
    the store is unchanged. *)
Theorem delete_task_confirms
    (lib : Lib) (env : Env) (store : Store) (id : string) (i : N) :
  castObjectId lib id = inr i ->
  dbError env = None ->
  delete_task lib env store id
  = ({| status := 200; body := OfMessage "Task deleted" |}, delete i store)
  /\ (store !! i = None -> delete i store = store)
  /\ forall env' docs,
       (get_tasks env' (delete i store)).1 = {| status := 200; body := OfTasks docs |} ->
       forall d, d ∈ docs <->
         (d.1 <> i /\ exists t, store !! d.1 = Some t /\ d.2 = hydrate env' t).
Proof.
  intros Hid Hdb. split; [|split].
  - unfold delete_task, findByIdAndDelete. rewrite Hid, Hdb. reflexivity.
  - apply delete_id.
  - intros env' docs Hget d. unfold get_tasks in Hget.
    destruct (find_sort env' (delete i store)) as [msg|docs'] eqn:Hf;
      [discriminate|].
    simpl in Hget. injection Hget as <-.
    rewrite (find_sort_elem_of _ _ _ _ Hf). split.
    + intros (t & Hl & Ht). apply lookup_delete_Some in Hl as [Hne Hl].
      split; [congruence|]. exists t. auto.
    + intros (Hne & t & Hl & Ht). exists t. split; [|exact Ht].
      apply lookup_delete_Some. split; [congruence|exact Hl].
Qed.

Lemma delete_task_confirms_witness :
  delete_task Node.lib Sample.env Sample.store Sample.oid1
  = ({| status := 200; body := OfMessage "Task deleted" |}, delete 1%N Sample.store)
  /\ (get_tasks Sample.env (delete 1%N Sample.store)).1
     = {| status := 200; body := OfTasks [] |}.
Proof.
  split.
  - apply (delete_task_confirms Node.lib Sample.env Sample.store Sample.oid1 1%N);
      reflexivity.
  - reflexivity.
Defined.

(** C1, as stated, fails: the identifier is well-formed and no record
    has it, and the answer is status 200 with the confirmation message,
    no client-input error. *)
Lemma delete_missing_confirms :
  castObjectId Node.lib Sample.oid2 = inr 2%N
  /\ Sample.store !! 2%N = None
  /\ delete_task Node.lib Sample.env Sample.store Sample.oid2
     = ({| status := 200; body := OfMessage "Task deleted" |}, Sample.store).
Proof. repeat split. Qed.

(** ** Updating a task *)

(** C4. An update request whose identifier is well-formed and matches no
    stored record, with a body the schema accepts and a reachable store,
    is answered with status 200 and a null task (no not-found signal),
    and the store is unchanged. A malformed identifier, a body the
    schema rejects or a failing store is answered with status 400 and
    [{ error: message }] carrying the failure's message. *)
Theorem put_task_missing_or_failed
    (lib : Lib) (env : Env) (store : Store) (id : string) (body : Paths) :
  (forall i,
      castObjectId lib id = inr i -> updateCastErrors body = [] ->
      dbError env = None -> store !! i = None ->
      put_task lib env store id body
      = ({| status := 200; body := OfTask None |}, store)
      /\ wire lib (OfTask None) = JNull)
  /\ (forall msg,
      castObjectId lib id = inl msg ->
      put_task lib env store id body
      = ({| status := 400; body := OfError msg |}, store))
  /\ (forall i msg,
      castObjectId lib id = inr i -> updateCastErrors body = [] ->
      dbError env = Some msg ->
      put_task lib env store id body
      = ({| status := 400; body := OfError msg |}, store))
  /\ (forall i path msg rest,
      castObjectId lib id = inr i ->
      updateCastErrors body = (path, msg) :: rest ->
      put_task lib env store id body
      = ({| status := 400; body := OfError msg |}, store)).
Proof.
  unfold put_task, findByIdAndUpdate. split; [|split; [|split]].
  - intros i Hid Hbody Hdb Hnone. rewrite Hid, Hbody, Hdb, Hnone. auto.
  - intros msg Hid. rewrite Hid. reflexivity.
  - intros i msg Hid Hbody Hdb. rewrite Hid, Hbody, Hdb. reflexivity.
  - intros i path msg rest Hid Hbody. rewrite Hid, Hbody. reflexivity.
Qed.

(** An update may carry any path of the schema: the fields a create
    stamps are overwritten like the others. *)
Example put_overwrites_stamped_fields :
  (put_task Node.lib Sample.env Sample.store Sample.oid1 Sample.forgedBody).1
  = {| status := 200;
       body := OfTask (Some (1%N,
                 {| title := Has "Buy milk"; description := Missing;
                    completed := Has false; createdAt := Has 0%Z;
                    serverHostname := Has "elsewhere";
                    serverIp := Has "203.0.113.9" |})) |}.
Proof. reflexivity. Qed.

Lemma put_task_missing_or_failed_witness :
  put_task Node.lib Sample.env Sample.store Sample.oid2 (System.completedOnly true)
  = ({| status := 200; body := OfTask None |}, Sample.store)
  /\ put_task Node.lib Sample.env Sample.store "milk" (System.completedOnly true)
     = ({| status := 400; body := OfError (Node.castErrorMessage "milk") |}, Sample.store)
  /\ put_task Node.lib Sample.downEnv Sample.store Sample.oid1 (System.completedOnly true)
     = ({| status := 400; body := OfError "connect ECONNREFUSED 10.0.3.5:27017" |},
        Sample.store).
Proof.
  split; [|split].
  - apply (put_task_missing_or_failed Node.lib Sample.env Sample.store
             Sample.oid2 (System.completedOnly true)) with (i := 2%N);
      reflexivity.
  - apply (put_task_missing_or_failed Node.lib Sample.env Sample.store
             "milk" (System.completedOnly true)).
    reflexivity.
  - apply (put_task_missing_or_failed Node.lib Sample.downEnv Sample.store
             Sample.oid1 (System.completedOnly true)) with (i := 1%N);
      reflexivity.
Defined.

(** ** The target group of the provisioning script *)

(** C9. The target group the script asks for: protocol HTTP on port
    5000, health checks over HTTP on path /health every 30 seconds with
    a timeout of 5 seconds, healthy after 2 successes and unhealthy
    after 3 failures, whatever network identifier step 1 returned
    (also none: an empty [$VPC_ID] expands to no word). *)
Theorem target_group_health_check (VPC_ID : string) :
  AwsSetup.targetGroupOf (AwsSetup.create_target_group VPC_ID)
  = Some {| AwsSetup.tg_protocol := "HTTP";
            AwsSetup.tg_port := 5000;
            AwsSetup.healthCheckProtocol := "HTTP";
            AwsSetup.healthCheckPath := "/health";
            AwsSetup.healthCheckIntervalSeconds := 30;
            AwsSetup.healthCheckTimeoutSeconds := 5;
            AwsSetup.healthyThresholdCount := 2;
            AwsSetup.unhealthyThresholdCount := 3 |}.
Proof. destruct VPC_ID; reflexivity. Qed.

(** ** The client's handlers *)

Import Frontend.

(** On a primitive value, [===] is equality of the two values. *)
Lemma strictEq_spec (a b : jsval) :
  primitive b = true -> strictEq a b = true <-> a = b.
Proof.
  intros Hp. split.
  - destruct a as [[| x | x | x | x | x]|], b as [[| y | y | y | y | y]|];
      simpl in *; try discriminate; intros H; try reflexivity.
    + apply Bool.eqb_prop in H. congruence.
    + apply Z.eqb_eq in H. congruence.
    + apply String.eqb_eq in H. congruence.
  - intros ->. destruct b as [[| y | y | y | y | y]|];
      simpl in *; try discriminate; try reflexivity.
    + apply Bool.eqb_reflx.
    + apply Z.eqb_refl.
    + apply String.eqb_refl.
Qed.

Lemma prop_idOf (task : json) :
  task <> JNull -> prop task "_id" = Some (idOf task).
Proof. unfold idOf. destruct task; simpl; congruence. Qed.

Lemma replaceById_total (id : jsval) (data : json) (ts : list json) :
  Forall (fun task => task <> JNull) ts ->
  replaceById id data ts
  = Some ((fun task => if strictEq (idOf task) id then data else task) <$> ts).
Proof.
  unfold replaceById. induction 1 as [|task ts Hn _ IH]; [reflexivity|].
  cbn [mapM]. rewrite IH. unfold idOf.
  destruct task; try contradiction; reflexivity.
Qed.

(** The list [toggleTask] builds, entry by entry: the reply's body where
    the entry's [_id] is the toggled identifier, the entry itself
    elsewhere. *)
Lemma replaceById_entries (id : jsval) (data : json) (ts : list json) :
  Forall (fun task => task <> JNull) ts ->
  primitive id = true ->
  exists ts',
    replaceById id data ts = Some ts'
    /\ length ts' = length ts
    /\ forall k task, ts !! k = Some task ->
         (prop task "_id" = Some id -> ts' !! k = Some data)
         /\ (prop task "_id" <> Some id -> ts' !! k = Some task).
Proof.
  intros Hn Hp. eexists. split; [apply replaceById_total; exact Hn|].
  split; [apply length_fmap|]. intros k task Hk.
  rewrite list_lookup_fmap, Hk. cbn [fmap option_fmap option_map].
  assert (Hnn : task <> JNull) by exact (Forall_lookup_1 _ _ _ _ Hn Hk).
  rewrite (prop_idOf _ Hnn).
  pose proof (strictEq_spec (idOf task) id Hp) as Hs.
  destruct (strictEq (idOf task) id).
  - split; [reflexivity|]. intros Hne. exfalso. apply Hne. f_equal.
    apply Hs. reflexivity.
  - split; [|reflexivity]. intros [= Heq]. apply Hs in Heq. discriminate.
Qed.

Lemma createTask_catch (st : AppState) (r : reply) :
  reachedCatch (createTask st r).2 = true
  <-> r = Rejected \/ exists code, r = Replied code None.
Proof.
  destruct r as [|code [data|]]; simpl; split; eauto.
  - discriminate.
  - intros [|[c ?]]; discriminate.
Qed.

Lemma toggleTask_catch (st : AppState) (id completed : jsval) (r : reply) :
  Forall (fun task => task <> JNull) (tasks st) ->
  reachedCatch (toggleTask st id completed r).2 = true
  <-> r = Rejected \/ exists code, r = Replied code None.
Proof.
  intros Hn. destruct r as [|code [data|]]; simpl; split; eauto.
  - rewrite (replaceById_total _ _ _ Hn). discriminate.
  - intros [|[c ?]]; discriminate.
Qed.

(** C3, as the code has it. The handlers never look at the HTTP status.
    Whatever the status of the reply, when its body parses as JSON,
    [createTask] puts that body at the head of the task list, clears the
    two inputs and asks for the server info again, and [toggleTask]
    answers with a list of the same length that holds that body at
    every position whose entry has the toggled identifier as its [_id]
    and the old entry at every other position; so the body [{ error }]
    of a 400 answer ends up in the list. The catch branch runs exactly
    when [fetch] rejects or the body of the reply cannot be read as
    JSON, whatever the status of that reply. The toggle part is for a
    rendered list (no null entry) and an identifier that is a primitive
    value. *)
Theorem handlers_ignore_status
    (st : AppState) (id completed : jsval) (code : nat) (data : json) :
  createTask st (Replied code (Some data))
  = ({| tasks := data :: tasks st; serverInfo := serverInfo st;
        newTask := (EmptyString, EmptyString); loading := false |},
     [Fetch (createTask_request st); Fetch GET_server_info])
  /\ (Forall (fun task => task <> JNull) (tasks st) ->
      primitive id = true ->
      exists ts,
        toggleTask st id completed (Replied code (Some data))
        = ({| tasks := ts; serverInfo := serverInfo st; newTask := newTask st;
              loading := loading st |},
           [Fetch (toggleTask_request id completed)])
        /\ length ts = length (tasks st)
        /\ forall k task, tasks st !! k = Some task ->
             (prop task "_id" = Some id -> ts !! k = Some data)
             /\ (prop task "_id" <> Some id -> ts !! k = Some task))
  /\ (forall r,
      reachedCatch (createTask st r).2 = true
      <-> r = Rejected \/ exists c, r = Replied c None)
  /\ (forall r,
      Forall (fun task => task <> JNull) (tasks st) ->
      reachedCatch (toggleTask st id completed r).2 = true
      <-> r = Rejected \/ exists c, r = Replied c None).
Proof.
  split; [reflexivity|]. split; [|split].
  - intros Hn Hp.
    destruct (replaceById_entries id data (tasks st) Hn Hp) as (ts & Hr & Hl & Hk).
    exists ts. unfold toggleTask. rewrite Hr. auto.
  - apply createTask_catch.
  - intros r. apply toggleTask_catch.
Qed.

Lemma handlers_ignore_status_witness :
  createTask Sample.appState (Replied 400 (Some Sample.errorBody))
  = ({| tasks := [Sample.errorBody; Sample.listed]; serverInfo := None;
        newTask := (EmptyString, EmptyString); loading := false |},
     [Fetch (POST_tasks "Walk the dog" "before noon"); Fetch GET_server_info])
  /\ toggleTask Sample.appState2 (Some (JStr Sample.oid1)) (Some (JBool false))
       (Replied 400 (Some Sample.errorBody))
     = ({| tasks := [Sample.listedLater; Sample.errorBody]; serverInfo := None;
           newTask := ("Walk the dog", "before noon"); loading := false |},
        [Fetch (PUT_task Sample.oid1 true)]).
Proof.
  split.
  - apply (handlers_ignore_status Sample.appState (Some (JStr Sample.oid1))
             (Some (JBool false)) 400 Sample.errorBody).
  - destruct (handlers_ignore_status Sample.appState2 (Some (JStr Sample.oid1))
                (Some (JBool false)) 400 Sample.errorBody) as (_ & Ht & _).
    destruct Ht as (ts & Heq & Hlen & Hk).
    + repeat constructor; discriminate.
    + reflexivity.
    + rewrite Heq.
      destruct ts as [|a [|b [|c ts]]]; try discriminate Hlen.
      destruct (Hk 0%nat Sample.listedLater eq_refl) as [_ H0].
      destruct (Hk 1%nat Sample.listed eq_refl) as [H1 _].
      assert (Ha : [a; b] !! 0%nat = Some Sample.listedLater).
      { apply H0. vm_compute. discriminate. }
      assert (Hb : [a; b] !! 1%nat = Some Sample.errorBody).
      { apply H1. reflexivity. }
      injection Ha as ->. injection Hb as ->. reflexivity.
Defined.

(** C3, as stated, fails: a reply is received, with status 502 or 200,
    whose body is not JSON, and both handlers end in their catch branch
    with the task list as it was; no network-level failure took place. *)
Lemma unreadable_reply_reaches_catch :
  createTask Sample.appState (Replied 502 None)
  = ({| tasks := [Sample.listed]; serverInfo := None;
        newTask := ("Walk the dog", "before noon"); loading := false |},
     [Fetch (POST_tasks "Walk the dog" "before noon");
      ConsoleError "Error creating task:"])
  /\ reachedCatch (createTask Sample.appState (Replied 502 None)).2 = true
  /\ toggleTask Sample.appState (Some (JStr Sample.oid1)) (Some (JBool false))
       (Replied 200 None)
     = (Sample.appState,
        [Fetch (PUT_task Sample.oid1 true); ConsoleError "Error updating task:"])
  /\ reachedCatch (toggleTask Sample.appState (Some (JStr Sample.oid1))
                     (Some (JBool false)) (Replied 200 None)).2 = true.
Proof. repeat split. Qed.
(** ** The mount effect *)

Lemma periods_succ (n : nat) :
  (periods (S n) = periods n
   /\ (Z.of_nat n + 1 < 10000 * (Z.of_nat (periods n) + 1))%Z)
  \/ (periods (S n) = S (periods n)
      /\ (Z.of_nat n + 1 = 10000 * (Z.of_nat (periods n) + 1))%Z).
Proof.
  unfold periods. rewrite Nat2Z.inj_succ.
  pose proof (Z.div_mod (Z.of_nat n) 10000 ltac:(lia)) as Hn.
  pose proof (Z.mod_pos_bound (Z.of_nat n) 10000 ltac:(lia)) as Hr.
  pose proof (Z.div_mod (Z.succ (Z.of_nat n)) 10000 ltac:(lia)) as Hn'.
  pose proof (Z.mod_pos_bound (Z.succ (Z.of_nat n)) 10000 ltac:(lia)) as Hr'.
  assert (0 <= Z.of_nat n / 10000)%Z by (apply Z.div_pos; lia).
  assert (0 <= Z.succ (Z.of_nat n) / 10000)%Z by (apply Z.div_pos; lia).
  lia.
Qed.

Lemma run_mounted (t0 : Z) (n : nat) :
  run n (App_effect (freshPage t0)).1
  = {| clock := t0 + Z.of_nat n;
       intervals := [{| handle := 0; period := 10000;
                        due := t0 + 10000 * (Z.of_nat (periods n) + 1);
                        action := FetchServerInfo |}];
       nextHandle := 1;
       sent := pollsUntil t0 n |}.
Proof.
  induction n as [|n IH].
  - cbn. unfold pollsUntil. cbn. repeat f_equal; lia.
  - change (run (S n) ?b) with (tick (run n b)). rewrite IH. clear IH.
    unfold tick. cbn [clock intervals nextHandle sent foldl].
    unfold fire. cbn [clock intervals nextHandle sent due].
    destruct (periods_succ n) as [[Hq Hlt] | [Hq Heq]].
    + rewrite decide_False by lia. rewrite Hq. unfold pollsUntil. rewrite Hq.
      f_equal. lia.
    + rewrite decide_True by lia.
      cbn. unfold pollsUntil. rewrite Hq, seq_S, fmap_app.
      rewrite decide_True by reflexivity.
      unfold fetchServerInfo, send, reschedule. cbn.
      f_equal; [lia | do 2 f_equal; lia | do 5 f_equal; lia].
Qed.

Lemma run_idle (m : nat) (b : Browser) :
  intervals b = [] ->
  intervals (run m b) = [] /\ sent (run m b) = sent b.
Proof.
  intros Hb. induction m as [|m [Hi Hs]]; [auto|].
  change (run (S m) b) with (tick (run m b)). unfold tick. cbn.
  rewrite Hi. cbn. auto.
Qed.

(** C10. After the first render at time [t0] the effect has sent one
    request for the task list and one for the server info; [n]
    milliseconds later the only further requests are one for the server
    info at each whole multiple of 10000 ms since the mount. When the
    component unmounts the interval is cleared, and however much time
    passes after that no request is added. *)
Theorem mount_polls_then_stops (t0 : Z) (n m : nat) :
  sent (App_effect (freshPage t0)).1 = [(t0, GET_tasks); (t0, GET_server_info)]
  /\ sent (run n (App_effect (freshPage t0)).1)
     = [(t0, GET_tasks); (t0, GET_server_info)]
       ++ ((fun k => ((t0 + 10000 * Z.of_nat k)%Z, GET_server_info))
             <$> seq 1 (Z.to_nat (Z.of_nat n / 10000)))
  /\ intervals ((App_effect (freshPage t0)).2 (run n (App_effect (freshPage t0)).1)) = []
  /\ sent (run m ((App_effect (freshPage t0)).2 (run n (App_effect (freshPage t0)).1)))
     = sent (run n (App_effect (freshPage t0)).1).
Proof.
  split; [reflexivity|]. rewrite run_mounted. split; [reflexivity|].
  assert (Hc : intervals ((App_effect (freshPage t0)).2
                 {| clock := t0 + Z.of_nat n;
                    intervals := [{| handle := 0; period := 10000;
                                     due := t0 + 10000 * (Z.of_nat (periods n) + 1);
                                     action := FetchServerInfo |}];
                    nextHandle := 1;
                    sent := pollsUntil t0 n |}) = []) by reflexivity.
  split; [exact Hc|].
  destruct (run_idle m _ Hc) as [_ Hs]. rewrite Hs. reflexivity.
Qed.

(** ** Toggling through the client *)

Lemma lookup_setOpt_ne (k k' : string) (v : option json) (o : gmap string json) :
  k <> k' -> setOpt k v o !! k' = o !! k'.
Proof. intros Hk. destruct v; simpl; [apply lookup_insert_ne; exact Hk | reflexivity]. Qed.

Lemma toJSON_id (lib : Lib) (i : N) (t : Task) :
  prop (toJSON lib (i, t)) "_id" = Some (Some (JStr (toHexString i))).
Proof.
  unfold toJSON, prop. f_equal.
  rewrite !lookup_setOpt_ne by discriminate.
  apply lookup_insert_eq.
Qed.







(** * Further properties of the code *)

(** ** The server's address *)

Lemma firstExternalIPv4_find (ifaces : list Iface) :
  firstExternalIPv4 ifaces = address <$> List.find externalIPv4 ifaces.
Proof.
  induction ifaces as [|i l IH]; [reflexivity|]. simpl. unfold externalIPv4 at 1.
  destruct (_ && _); [reflexivity | exact IH].
Qed.

Lemma find_app {A} (p : A -> bool) (l1 l2 : list A) :
  List.find p (l1 ++ l2)
  = match List.find p l1 with Some x => Some x | None => List.find p l2 end.
Proof.
  induction l1 as [|x l1 IH]; [reflexivity|]. simpl.
  destruct (p x); [reflexivity | exact IH].
Qed.

Lemma getServerIp_from_find (interfaces : list (string * list Iface)) :
  getServerIp_from interfaces
  = match List.find externalIPv4 (concat (snd <$> interfaces)) with
    | Some i => address i
    | None => "unknown"
    end.
Proof.
  induction interfaces as [|[name ifaces] l IH]; [reflexivity|].
  cbn [getServerIp_from fmap list_fmap concat snd].
  rewrite find_app, firstExternalIPv4_find.
  destruct (List.find externalIPv4 ifaces); [reflexivity | exact IH].
Qed.

(** X1. [getServerIp] scans the interfaces in the order of their names
    and, under one name, of their records: the answer is the address of
    the first record that is IPv4 and not internal, and the text
    unknown when no record is. So an answer other than unknown is never
    the address of an internal or non-IPv4 record unless an external
    IPv4 record holds that address too. *)
Theorem getServerIp_first_external (env : Env) :
  getServerIp env
  = match List.find externalIPv4 (concat (snd <$> networkInterfaces env)) with
    | Some i => address i
    | None => "unknown"
    end
  /\ (getServerIp env = "unknown"
      \/ exists name ifaces i,
           (name, ifaces) ∈ networkInterfaces env /\ i ∈ ifaces
           /\ family i = "IPv4" /\ internal i = false
           /\ getServerIp env = address i).
Proof.
  unfold getServerIp. rewrite getServerIp_from_find. split; [reflexivity|].
  destruct (List.find _ _) as [i|] eqn:Hf; [right | left; reflexivity].
  apply find_some in Hf as [Hin Hp].
  apply in_concat in Hin as (ifaces & Hifs & Hi).
  apply list_elem_of_In in Hifs, Hi.
  apply list_elem_of_fmap in Hifs as ([name ifaces'] & -> & Hnif).
  exists name, ifaces', i. unfold externalIPv4 in Hp.
  apply andb_true_iff in Hp as [Hfam Hint].
  apply String.eqb_eq in Hfam. apply negb_true_iff in Hint. auto.
Qed.

(** ** What a create does to the store *)

Lemma post_tasks_cases (env : Env) (store : Store) (body : Paths) :
  (exists msg,
      post_tasks env store body = ({| status := 400; body := OfError msg |}, store))
  \/ (exists id task,
         store !! id = None
         /\ post_tasks env store body
            = ({| status := 201; body := OfTask (Some (id, task)) |},
               <[id := task]> store)).
Proof.
  unfold post_tasks, save.
  destruct (validationErrors _) as [|e errs]; [|eauto].
  destruct (p_id _) as [| | id |]; eauto.
  destruct (dbError env); [eauto|].
  destruct (store !! id) eqn:Hid; eauto 6.
Qed.

(** X2. A create only ever adds: every record stored before the request
    is stored unchanged after it, whatever the body holds (an identifier
    of its own included). The answer is 201, with exactly one record
    added under an identifier that was free, or 400, with the store as
    it was. *)
Theorem post_tasks_only_adds (env : Env) (store : Store) (body : Paths) :
  (forall j t, store !! j = Some t -> (post_tasks env store body).2 !! j = Some t)
  /\ ((status (post_tasks env store body).1 = 400
       /\ (post_tasks env store body).2 = store)
      \/ (status (post_tasks env store body).1 = 201
          /\ exists id task,
               store !! id = None
               /\ Backend.body (post_tasks env store body).1 = OfTask (Some (id, task))
               /\ (post_tasks env store body).2 = <[id := task]> store)).
Proof.
  destruct (post_tasks_cases env store body)
    as [[msg ->] | (id & task & Hfresh & ->)]; simpl.
  - split; [auto|]. left. auto.
  - split.
    + intros j t Hj. rewrite lookup_insert_ne; [exact Hj | congruence].
    + right. split; [reflexivity|]. exists id, task. auto.
Qed.

Lemma later_dateLeb (a b : slot Z) :
  later a b -> dateLeb (sortKey a) (sortKey b) = false.
Proof.
  destruct a as [| |x], b as [| |y]; simpl; try contradiction; try reflexivity.
  intros H. apply Z.leb_gt. exact H.
Qed.

(** A created record holds a completed flag and a date, or null where
    the body says null: a query answers it as it is stored. *)
Lemma created_hydrate (env env' : Env) (store store' : Store) (body : Paths) (doc : Doc) :
  post_tasks env store body
  = ({| status := 201; body := OfTask (Some doc) |}, store') ->
  hydrateDoc env' doc = doc.
Proof.
  unfold post_tasks, save. intros H.
  destruct (validationErrors _) as [|e errs] eqn:Hv; [|discriminate].
  unfold validationErrors in Hv.
  do 3 (apply app_nil in Hv as [_ Hv]).
  apply app_nil in Hv as [Hco Hv]. apply app_nil in Hv as [Hcr _].
  destruct (p_id _) as [| | id |]; try discriminate.
  destruct (dbError env); [discriminate|].
  destruct (store !! id); [discriminate|].
  injection H as <- _. unfold hydrateDoc, hydrate. cbn [fst snd]. f_equal.
  destruct body as [bi bt bd bco bcr bh ba].
  cbn [Task_new spreadWithServer p_completed p_createdAt] in Hco, Hcr.
  destruct bco, bcr; try discriminate; reflexivity.
Qed.

(** X3. After a create answered 201, the next list that the store
    answers holds the created record as the create answered it; and
    when the created record's date is later than that of every record
    stored before (one that stores no date counting as earliest), it is
    the first element. *)
Theorem created_task_listed_first
    (env env' : Env) (store store' : Store) (body : Paths) (doc : Doc) :
  post_tasks env store body
  = ({| status := 201; body := OfTask (Some doc) |}, store') ->
  dbError env' = None ->
  exists docs,
    get_tasks env' store' = ({| status := 200; body := OfTasks docs |}, store')
    /\ doc ∈ docs
    /\ ((forall j t, store !! j = Some t ->
           later (createdAt doc.2) (createdAt t)) ->
        head docs = Some doc).
Proof.
  intros Hpost Hdb.
  pose proof (created_hydrate env env' store store' body doc Hpost) as Hhy.
  destruct doc as [id task].
  destruct (post_tasks_cases env store body)
    as [[msg H] | (id' & task' & Hfresh & H)]; rewrite H in Hpost;
    [discriminate|].
  injection Hpost as -> -> <-.
  destruct (find_sort_ok env' (<[id := task]> store) Hdb) as (sorted & Hf & Hp & Hs).
  exists (hydrateDoc env' <$> sorted). unfold get_tasks. rewrite Hf.
  split; [reflexivity|].
  assert (Hin : (id, task) ∈ sorted).
  { rewrite Hp. apply elem_of_map_to_list. apply lookup_insert_eq. }
  split.
  { rewrite <- Hhy. apply list_elem_of_fmap. exists (id, task). auto. }
  intros Hnew.
  destruct sorted as [|[j t] rest]; [inversion Hin|].
  cbn [fmap list_fmap head]. rewrite <- Hhy. f_equal. f_equal.
  apply elem_of_cons in Hin as [Heq | Hrest]; [congruence|].
  apply StronglySorted_inv in Hs as [_ Hall].
  rewrite Forall_forall in Hall. specialize (Hall _ Hrest).
  unfold newerFirst in Hall. simpl in Hall.
  assert (Hj : <[id := task]> store !! j = Some t).
  { apply elem_of_map_to_list. rewrite <- Hp. left. }
  destruct (decide (j = id)) as [-> | Hne].
  - rewrite lookup_insert_eq in Hj. congruence.
  - rewrite lookup_insert_ne in Hj by congruence.
    specialize (Hnew j t Hj). simpl in Hnew.
    apply later_dateLeb in Hnew. congruence.
Qed.

Lemma created_task_listed_first_witness :
  createdAt Sample.task = Has 1600000000000%Z
  /\ createdAt (toTask (Task_new Sample.env
                  (spreadWithServer (System.titleOnly "Walk the dog")
                     (hostname Sample.env) (getServerIp Sample.env))))
     = Has 1700000000000%Z
  /\ exists docs,
    get_tasks Sample.env
      (<[7%N := toTask (Task_new Sample.env
                  (spreadWithServer (System.titleOnly "Walk the dog")
                     (hostname Sample.env) (getServerIp Sample.env)))]> Sample.store)
    = ({| status := 200; body := OfTasks docs |},
       <[7%N := toTask (Task_new Sample.env
                  (spreadWithServer (System.titleOnly "Walk the dog")
                     (hostname Sample.env) (getServerIp Sample.env)))]> Sample.store)
    /\ (7%N, toTask (Task_new Sample.env
                  (spreadWithServer (System.titleOnly "Walk the dog")
                     (hostname Sample.env) (getServerIp Sample.env)))) ∈ docs
    /\ head docs
       = Some (7%N, toTask (Task_new Sample.env
                  (spreadWithServer (System.titleOnly "Walk the dog")
                     (hostname Sample.env) (getServerIp Sample.env)))).
Proof.
  split; [reflexivity|]. split; [reflexivity|].
  destruct (created_task_listed_first Sample.env Sample.env Sample.store
           (<[7%N := toTask (Task_new Sample.env
                  (spreadWithServer (System.titleOnly "Walk the dog")
                     (hostname Sample.env) (getServerIp Sample.env)))]> Sample.store)
           (System.titleOnly "Walk the dog")
           (7%N, toTask (Task_new Sample.env
                  (spreadWithServer (System.titleOnly "Walk the dog")
                     (hostname Sample.env) (getServerIp Sample.env)))))
    as (docs & Hget & Hin & Hhead).
  - reflexivity.
  - reflexivity.
  - exists docs. split; [exact Hget|]. split; [exact Hin|].
    apply Hhead. intros j t Hj. unfold Sample.store in Hj.
    apply lookup_singleton_Some in Hj as [_ <-]. reflexivity.
Defined.

(** X4. Creating a record and then deleting it by the identifier the
    create returned gives back the store as it was before the create. *)
Theorem create_then_delete_restores
    (lib : Lib) (env env' : Env) (store store' : Store) (body : Paths) (doc : Doc) :
  post_tasks env store body
  = ({| status := 201; body := OfTask (Some doc) |}, store') ->
  castObjectId lib (toHexString doc.1) = inr doc.1 ->
  dbError env' = None ->
  delete_task lib env' store' (toHexString doc.1)
  = ({| status := 200; body := OfMessage "Task deleted" |}, store).
Proof.
  intros Hpost Hid Hdb. destruct doc as [id task]. simpl in Hid.
  destruct (post_tasks_cases env store body)
    as [[msg H] | (id' & task' & Hfresh & H)]; rewrite H in Hpost;
    [discriminate|].
  injection Hpost as -> -> <-.
  unfold delete_task, findByIdAndDelete. simpl. rewrite Hid, Hdb.
  rewrite delete_insert_id by exact Hfresh. reflexivity.
Qed.

Lemma create_then_delete_restores_witness :
  delete_task Node.lib Sample.env
    (<[7%N := toTask (Task_new Sample.env
                (spreadWithServer (System.titleOnly "Walk the dog")
                   (hostname Sample.env) (getServerIp Sample.env)))]> Sample.store)
    (toHexString 7)
  = ({| status := 200; body := OfMessage "Task deleted" |}, Sample.store).
Proof.
  apply (create_then_delete_restores Node.lib Sample.env Sample.env Sample.store _
           (System.titleOnly "Walk the dog")
           (7%N, toTask (Task_new Sample.env
                  (spreadWithServer (System.titleOnly "Walk the dog")
                     (hostname Sample.env) (getServerIp Sample.env)))));
    reflexivity.
Defined.

(** ** What an update does to the store *)

Lemma put_task_cases (lib : Lib) (env : Env) (store : Store) (id : string) (upd : Paths) :
  (exists msg,
      put_task lib env store id upd = ({| status := 400; body := OfError msg |}, store))
  \/ (exists i,
         castObjectId lib id = inr i /\ updateCastErrors upd = []
         /\ dbError env = None /\ store !! i = None
         /\ put_task lib env store id upd
            = ({| status := 200; body := OfTask None |}, store))
  \/ (exists i t,
         castObjectId lib id = inr i /\ updateCastErrors upd = []
         /\ dbError env = None /\ store !! i = Some t
         /\ changesId i upd = false
         /\ put_task lib env store id upd
            = ({| status := 200;
                  body := OfTask (Some (hydrateDoc env (i, applyUpdate upd t))) |},
               <[i := applyUpdate upd t]> store)).
Proof.
  unfold put_task, findByIdAndUpdate.
  destruct (castObjectId lib id) as [msg|i]; [eauto|].
  destruct (updateCastErrors upd) as [|[path msg] rest]; [|eauto].
  destruct (dbError env); [eauto|].
  destruct (store !! i) as [t|] eqn:Hi.
  - destruct (changesId i upd) eqn:Hc; [eauto|].
    right. right. exists i, t. auto 7.
  - right. left. exists i. auto 6.
Qed.

Lemma setPath_idem {A} (f : field A) (old : slot A) :
  setPath f (setPath f old) = setPath f old.
Proof. destruct f; reflexivity. Qed.

Lemma applyUpdate_idem (upd : Paths) (t : Task) :
  applyUpdate upd (applyUpdate upd t) = applyUpdate upd t.
Proof. unfold applyUpdate. simpl. rewrite !setPath_idem. reflexivity. Qed.

(** X5. An update neither adds nor removes a record: the identifiers in
    the store are the same after it, every record other than the
    addressed one is unchanged, and the record a 200 answer carries is
    the record the store then holds under that identifier, as a query
    answers it. *)
Theorem put_task_frame
    (lib : Lib) (env : Env) (store : Store) (id : string) (upd : Paths) :
  dom (put_task lib env store id upd).2 = dom store
  /\ (forall i j, castObjectId lib id = inr i -> j <> i ->
        (put_task lib env store id upd).2 !! j = store !! j)
  /\ (forall d, body (put_task lib env store id upd).1 = OfTask (Some d) ->
        castObjectId lib id = inr d.1
        /\ exists t, (put_task lib env store id upd).2 !! d.1 = Some t
                     /\ d.2 = hydrate env t).
Proof.
  destruct (put_task_cases lib env store id upd)
    as [[msg ->] | [(i & Hid & _ & _ & Hi & ->) | (i & t & Hid & _ & _ & Hi & _ & ->)]];
    simpl.
  - repeat split; auto; discriminate.
  - repeat split; auto; discriminate.
  - split; [|split].
    + apply dom_insert_lookup_L. eauto.
    + intros i' j Hid' Hj. rewrite lookup_insert_ne; [reflexivity|congruence].
    + intros d [= <-]. cbn [hydrateDoc fst snd]. split; [exact Hid|].
      eexists. split; [apply lookup_insert_eq | reflexivity].
Qed.

(** X6. An update whose body holds plain paths of the schema (no
    update operator), sent a second time, changes nothing: on the store
    the first request left, the same request at the same time gets the
    same answer and leaves the same store. *)
Theorem put_task_idempotent
    (lib : Lib) (env : Env) (store : Store) (id : string) (upd : Paths) :
  put_task lib env (put_task lib env store id upd).2 id upd
  = put_task lib env store id upd.
Proof.
  destruct (put_task_cases lib env store id upd)
    as [[msg H] | [(i & Hid & Hu & Hdb & Hi & H) | (i & t & Hid & Hu & Hdb & Hi & Hc & H)]];
    rewrite H; simpl; [exact H | exact H |].
  unfold put_task, findByIdAndUpdate. rewrite Hid, Hu, Hdb.
  rewrite lookup_insert_eq, Hc, applyUpdate_idem, insert_insert_eq. reflexivity.
Qed.

(** ** Failed requests *)


(** ** The health and server-info routes *)

Import Diagnostics.

Lemma megabytes_nearest (bytes : N) :
  (1048576 * megabytes bytes <= bytes + 524288 < 1048576 * (megabytes bytes + 1))%N.
Proof.
  unfold megabytes.
  pose proof (N.div_mod (bytes + 524288) 1048576 ltac:(lia)) as Hd.
  pose proof (N.mod_upper_bound (bytes + 524288) 1048576 ltac:(lia)) as Hm.
  revert Hd Hm.
  generalize ((bytes + 524288) / 1048576)%N, ((bytes + 524288) mod 1048576)%N.
  intros q r Hd Hm. lia.
Qed.

Lemma megabytes_mono (a b : N) : (a <= b)%N -> (megabytes a <= megabytes b)%N.
Proof. intros H. unfold megabytes. apply N.Div0.div_le_mono. lia. Qed.

(** X8. The memory figures of the server-info answer are the byte counts
    in units of 1048576 rounded to the nearest whole number (a half
    going up), so each is within half a unit of the true value, and the
    answer never shows more free than total memory when the system
    reports no more free than total bytes. *)
Theorem server_info_memory {number : Type} (env : Env) (p : Process number) :
  (server_info env p).1 = 200
  /\ (1048576 * total (s_memory (server_info env p).2) <= totalmem p + 524288
      < 1048576 * (total (s_memory (server_info env p).2) + 1))%N
  /\ (1048576 * free (s_memory (server_info env p).2) <= freemem p + 524288
      < 1048576 * (free (s_memory (server_info env p).2) + 1))%N
  /\ ((freemem p <= totalmem p)%N ->
      (free (s_memory (server_info env p).2)
       <= total (s_memory (server_info env p).2))%N).
Proof.
  simpl. split; [reflexivity|].
  split; [apply megabytes_nearest|]. split; [apply megabytes_nearest|].
  apply megabytes_mono.
Qed.

Lemma server_info_memory_witness :
  (free (s_memory (server_info Sample.env
           {| uptime := 12%Z; platform := "linux";
              totalmem := 4123456789%N; freemem := 1048575%N |}).2)
   <= total (s_memory (server_info Sample.env
           {| uptime := 12%Z; platform := "linux";
              totalmem := 4123456789%N; freemem := 1048575%N |}).2))%N.
Proof.
  apply (server_info_memory Sample.env
           {| uptime := 12%Z; platform := "linux";
              totalmem := 4123456789%N; freemem := 1048575%N |}).
  vm_compute. discriminate.
Defined.

(** X9. The host name and address that a create stamps on the record it
    persists are the ones the health and server-info routes of the same
    process report at that time. *)
Theorem stamps_match_diagnostics {number : Type}
    (env : Env) (p : Process number) (store store' : Store) (b : Paths) (doc : Doc) :
  post_tasks env store b
  = ({| status := 201; body := OfTask (Some doc) |}, store') ->
  serverHostname doc.2 = Has (h_hostname (health env p).2)
  /\ serverIp doc.2 = Has (h_ip (health env p).2)
  /\ serverHostname doc.2 = Has (s_hostname (server_info env p).2)
  /\ serverIp doc.2 = Has (s_ip (server_info env p).2)
  /\ (health env p).1 = 200
  /\ h_message (health env p).2 = "OK".
Proof.
  intros H. destruct doc as [i t].
  apply post_tasks_created in H as (_ & Ht & _). simpl in Ht. subst t.
  repeat split.
Qed.

Lemma stamps_match_diagnostics_witness :
  serverHostname Sample.forgedTask = Has "ip-10-0-3-17"
  /\ serverIp Sample.forgedTask = Has "10.0.3.17"
  /\ serverHostname Sample.forgedTask = Has "ip-10-0-3-17"
  /\ serverIp Sample.forgedTask = Has "10.0.3.17"
  /\ 200 = 200
  /\ "OK" = "OK".
Proof.
  apply (stamps_match_diagnostics Sample.env
           {| uptime := 12%Z; platform := "linux";
              totalmem := 1024%N; freemem := 512%N |}
           Sample.store (<[7%N := Sample.forgedTask]> Sample.store)
           Sample.forgedBody (7%N, Sample.forgedTask)).
  reflexivity.
Defined.

(** ** The client's delete and list handlers *)

Lemma removeById_total (id : jsval) (ts : list json) :
  Forall (fun task => task <> JNull) ts ->
  Handlers.removeById id ts
  = Some (filter (fun task => strictEq (idOf task) id = false) ts).
Proof.
  induction 1 as [|task ts Hn _ IH]; [reflexivity|].
  cbn [Handlers.removeById].
  destruct (prop task "_id") as [tid|] eqn:Hp;
    [|destruct task; try discriminate; contradiction].
  assert (Hid : idOf task = tid) by (unfold idOf; rewrite Hp; reflexivity).
  rewrite IH, filter_cons, Hid.
  destruct (strictEq tid id); cbn [negb];
    [rewrite decide_False by discriminate | rewrite decide_True by reflexivity];
    reflexivity.
Qed.

Lemma removeById_without (id : jsval) (ts : list json) :
  Forall (fun task => task <> JNull) ts ->
  primitive id = true ->
  without id ts (filter (fun task => strictEq (idOf task) id = false) ts).
Proof.
  intros Hn Hp. induction Hn as [|task ts Hnn _ IH]; [constructor|].
  rewrite filter_cons.
  pose proof (strictEq_spec (idOf task) id Hp) as Hs.
  destruct (strictEq (idOf task) id).
  - rewrite decide_False by discriminate. apply without_drop; [|exact IH].
    rewrite (prop_idOf _ Hnn). f_equal. apply Hs. reflexivity.
  - rewrite decide_True by reflexivity. apply without_keep; [|exact IH].
    rewrite (prop_idOf _ Hnn). intros [= Heq]. apply Hs in Heq. discriminate.
Qed.

Lemma without_nil_inv (id : jsval) (r : list json) : without id [] r -> r = [].
Proof. inversion 1. reflexivity. Qed.

Lemma without_cons_inv (id : jsval) (task : json) (ts r : list json) :
  without id (task :: ts) r ->
  (prop task "_id" = Some id /\ without id ts r)
  \/ (prop task "_id" <> Some id /\ exists r', r = task :: r' /\ without id ts r').
Proof. inversion 1; subst; eauto. Qed.

(** X10. [deleteTask] never reads the reply: once [fetch] resolves, with
    any status and any body (an error answer or a body that is no JSON
    included), the list becomes the list without the entries whose
    [_id] is the identifier, the others in their order. Only when
    [fetch] rejects is the list kept and the error logged. For a
    rendered list (no null entry) and a primitive identifier. *)
Theorem deleteTask_ignores_reply
    (st : AppState) (id : jsval) (code : nat) (data : option json) :
  Forall (fun task => task <> JNull) (tasks st) ->
  primitive id = true ->
  (exists ts,
      Handlers.deleteTask st id (Replied code data)
      = ({| tasks := ts; serverInfo := serverInfo st; newTask := newTask st;
            loading := loading st |},
         [Fetch (DELETE_task (template id))])
      /\ without id (tasks st) ts)
  /\ Handlers.deleteTask st id Rejected
     = (st, [Fetch (DELETE_task (template id)); ConsoleError "Error deleting task:"]).
Proof.
  intros Hn Hp. split; [|reflexivity].
  eexists. split; [|apply removeById_without; assumption].
  unfold Handlers.deleteTask. rewrite (removeById_total _ _ Hn). reflexivity.
Qed.

Lemma deleteTask_ignores_reply_witness :
  Handlers.deleteTask Sample.appState2 (Some (JStr Sample.oid1))
    (Replied 400 (Some Sample.errorBody))
  = ({| tasks := [Sample.listedLater]; serverInfo := None;
        newTask := ("Walk the dog", "before noon"); loading := false |},
     [Fetch (DELETE_task Sample.oid1)])
  /\ Handlers.deleteTask Sample.appState2 (Some (JStr Sample.oid1)) Rejected
     = (Sample.appState2,
        [Fetch (DELETE_task Sample.oid1); ConsoleError "Error deleting task:"]).
Proof.
  destruct (deleteTask_ignores_reply Sample.appState2 (Some (JStr Sample.oid1)) 400
              (Some Sample.errorBody)) as [(ts & Heq & Hw) Hrej].
  - repeat constructor; discriminate.
  - reflexivity.
  - split; [|exact Hrej]. rewrite Heq.
    apply without_cons_inv in Hw as [[Hid _] | (_ & r & -> & Hw)].
    { vm_compute in Hid. discriminate Hid. }
    apply without_cons_inv in Hw as [[_ Hw] | (Hne & _)].
    + apply without_nil_inv in Hw as ->. reflexivity.
    + exfalso. apply Hne. reflexivity.
Defined.

(** X11. The list request of the page load, against the backend: when
    the store answers, the client's list holds one entry for every
    stored record, in the order of the dates the records store, latest
    first (a record that stores none last), each entry the document the
    query answers for its record; when the store fails, the handler
    does not look at the status 500 and puts the error object where the
    list was, so the task state is no longer a list. *)
Theorem load_shows_store (lib : Lib) (env : Env) (store : Store) (st : AppState) :
  match dbError env with
  | None =>
      exists sorted docs,
        Session.load lib env store st
        = inl {| tasks := toJSON lib <$> docs; serverInfo := serverInfo st;
                 newTask := newTask st; loading := loading st |}
        /\ sorted ≡ₚ map_to_list store
        /\ Forall2 (answeredAs env) sorted docs
        /\ forall i j d1 d2,
             i < j -> sorted !! i = Some d1 -> sorted !! j = Some d2 ->
             notEarlier (createdAt d1.2) (createdAt d2.2)
  | Some msg =>
      Session.load lib env store st = inr (JObj {[ "error" := JStr msg ]})
  end.
Proof.
  unfold Session.load, get_tasks.
  destruct (dbError env) as [msg|] eqn:Hdb.
  - unfold find_sort. rewrite Hdb. reflexivity.
  - destruct (find_sort_listed env store Hdb) as (sorted & docs & -> & H).
    exists sorted, docs. auto.
Qed.

(** ** The client's list follows the store *)

Import Session.

Lemma idOf_toJSON (lib : Lib) (i : N) (t : Task) :
  idOf (toJSON lib (i, t)) = Some (JStr (toHexString i)).
Proof. unfold idOf. rewrite (toJSON_id lib i t). reflexivity. Qed.

Lemma sync_no_null (lib : Lib) (shown : list (Env * Doc)) :
  Forall (fun task => task <> JNull)
         ((fun a => toJSON lib (hydrateDoc a.1 a.2)) <$> shown).
Proof. apply Forall_fmap, Forall_true. intros d. discriminate. Qed.

Lemma sync_lookup (lib : Lib) (store : Store) (shown : list (Env * Doc)) (k : nat) :
  shown.*2 ≡ₚ map_to_list store ->
  k < length ((fun a => toJSON lib (hydrateDoc a.1 a.2)) <$> shown) ->
  exists e i t,
    shown !! k = Some (e, (i, t))
    /\ ((fun a => toJSON lib (hydrateDoc a.1 a.2)) <$> shown) !! k
       = Some (toJSON lib (hydrateDoc e (i, t)))
    /\ store !! i = Some t.
Proof.
  intros Hp Hk. rewrite length_fmap in Hk.
  destruct (lookup_lt_is_Some_2 shown k Hk) as [[e [i t]] Hd].
  exists e, i, t. split; [exact Hd|]. split.
  - rewrite list_lookup_fmap, Hd. reflexivity.
  - apply elem_of_map_to_list. rewrite <- Hp.
    apply list_elem_of_fmap. exists (e, (i, t)). split; [reflexivity|].
    eapply list_elem_of_lookup_2; eauto.
Qed.

(** Among stored records, the printed identifiers tell the records
    apart, because the cast reads each of them back. *)
Lemma sync_keys (lib : Lib) (store : Store) (shown : list (Env * Doc)) (i : N) (t : Task) :
  shown.*2 ≡ₚ map_to_list store ->
  readsBack lib store ->
  store !! i = Some t ->
  Forall (fun a : Env * Doc =>
            String.eqb (toHexString a.2.1) (toHexString i)
            = bool_decide (a.2.1 = i)) shown.
Proof.
  intros Hp Hrb Hi. apply Forall_forall. intros [e [j u]] Hin. cbn [fst snd].
  assert (Hj : store !! j = Some u).
  { apply elem_of_map_to_list. rewrite <- Hp.
    apply list_elem_of_fmap. exists (e, (j, u)). auto. }
  destruct (decide (j = i)) as [-> | Hne].
  - rewrite String.eqb_refl. symmetry. apply bool_decide_eq_true_2. reflexivity.
  - rewrite bool_decide_eq_false_2 by exact Hne.
    apply String.eqb_neq. intros Heq.
    pose proof (Hrb j u Hj) as Hcj. pose proof (Hrb i t Hi) as Hci.
    rewrite Heq in Hcj. congruence.
Qed.


Lemma filter_toJSON (lib : Lib) (shown : list (Env * Doc)) (i : N) :
  Forall (fun a : Env * Doc =>
            String.eqb (toHexString a.2.1) (toHexString i)
            = bool_decide (a.2.1 = i)) shown ->
  filter (fun task => strictEq (idOf task) (Some (JStr (toHexString i))) = false)
         ((fun a => toJSON lib (hydrateDoc a.1 a.2)) <$> shown)
  = (fun a => toJSON lib (hydrateDoc a.1 a.2))
      <$> filter (fun a : Env * Doc => a.2.1 <> i) shown.
Proof.
  induction 1 as [|[e [j u]] shown Hd _ IH]; [reflexivity|].
  cbn [fmap list_fmap] in *. rewrite !filter_cons, IH.
  cbn [fst snd] in *.
  change (hydrateDoc e (j, u)) with (j, hydrate e u).
  rewrite (idOf_toJSON lib j (hydrate e u)). cbn [strictEq]. rewrite Hd.
  destruct (decide (j = i)) as [-> | Hne].
  - rewrite bool_decide_eq_true_2 by reflexivity.
    rewrite decide_False by discriminate.
    rewrite decide_False by (intros H; apply H; reflexivity). reflexivity.
  - rewrite bool_decide_eq_false_2 by exact Hne.
    rewrite decide_True by reflexivity.
    rewrite decide_True by exact Hne. reflexivity.
Qed.

Lemma map_to_list_delete_keys (store : Store) (i : N) :
  Forall (fun d : Doc => d.1 <> i) (map_to_list (delete i store)).
Proof.
  apply Forall_forall. intros [j u] Hin. simpl.
  apply elem_of_map_to_list in Hin. intros ->.
  rewrite lookup_delete_eq in Hin. discriminate.
Qed.


Lemma filter_other_keys (i : N) (l : list Doc) :
  Forall (fun d : Doc => d.1 <> i) l ->
  filter (fun d : Doc => d.1 <> i) l = l.
Proof.
  induction 1 as [|d l Hd _ IH]; [reflexivity|].
  rewrite filter_cons_True by exact Hd. rewrite IH. reflexivity.
Qed.


Lemma shown_filter (i : N) (shown : list (Env * Doc)) :
  (filter (fun a : Env * Doc => a.2.1 <> i) shown).*2
  = filter (fun d : Doc => d.1 <> i) shown.*2.
Proof.
  induction shown as [|[e d] shown IH]; [reflexivity|].
  cbn [fmap list_fmap] in *. rewrite !filter_cons. cbn [snd].
  destruct (decide (d.1 <> i)); cbn [fmap list_fmap]; rewrite IH; reflexivity.
Qed.


Lemma perm_delete (store : Store) (docs : list Doc) (i : N) (t : Task) :
  docs ≡ₚ map_to_list store ->
  store !! i = Some t ->
  filter (fun d : Doc => d.1 <> i) docs ≡ₚ map_to_list (delete i store).
Proof.
  intros Hp Hi.
  rewrite Hp, <- (map_to_list_delete store i t Hi).
  rewrite filter_cons_False by (intros H; apply H; reflexivity).
  rewrite filter_other_keys by apply map_to_list_delete_keys. reflexivity.
Qed.


Lemma clickDelete_entry
    (lib : Lib) (env0 env : Env) (store : Store) (st : AppState) (k : nat)
    (i : N) (t : Task) :
  castObjectId lib (toHexString i) = inr i ->
  dbError env = None ->
  tasks st !! k = Some (toJSON lib (hydrateDoc env0 (i, t))) ->
  Forall (fun task => task <> JNull) (tasks st) ->
  clickDelete lib env (store, st) k
  = (delete i store,
     setTasks
       (filter (fun task => strictEq (idOf task) (Some (JStr (toHexString i))) = false)
               (tasks st)) st).
Proof.
  intros Hid Hdb Hk Hn.
  change (hydrateDoc env0 (i, t)) with (i, hydrate env0 t) in Hk.
  unfold clickDelete. cbn [fst snd]. rewrite Hk.
  rewrite (toJSON_id lib i (hydrate env0 t)).
  cbn [Handlers.deleteTask_request template toString].
  unfold delete_task, findByIdAndDelete. rewrite Hid, Hdb.
  unfold System.transport, Handlers.deleteTask. cbn [status body wire].
  rewrite (removeById_total _ _ Hn). reflexivity.
Qed.

(** X12. Submitting the form with a non-empty title, against a reachable
    store and with an unused generated identifier: the backend stores
    one new record with the typed title and description and completed
    false, the client puts that record at the head of its list and
    clears the inputs, and a list that showed exactly the stored records
    before still does afterwards. *)
Theorem submit_keeps_sync (lib : Lib) (env : Env) (store : Store) (st : AppState) :
  inSync lib store (tasks st) ->
  (newTask st).1 <> EmptyString ->
  dbError env = None ->
  store !! newObjectId env = None ->
  exists task,
    submit lib env (store, st)
    = (<[newObjectId env := task]> store,
       {| tasks := toJSON lib (newObjectId env, task) :: tasks st;
          serverInfo := serverInfo st;
          newTask := (EmptyString, EmptyString);
          loading := false |})
    /\ title task = Has (newTask st).1
    /\ description task = Has (newTask st).2
    /\ completed task = Has false
    /\ inSync lib (<[newObjectId env := task]> store)
         (toJSON lib (newObjectId env, task) :: tasks st).
Proof.
  intros (shown & Hts & Hp) Ht Hdb Hfresh.
  exists (toTask (Task_new env
            (spreadWithServer (newTaskBody (newTask st).1 (newTask st).2)
               (hostname env) (getServerIp env)))).
  split; [|split; [|split; [|split]]].
  - unfold submit, createTask_request. cbn [fst snd].
    unfold post_tasks, save, validationErrors. cbn.
    destruct (newTask st).1 as [|c t'] eqn:Htitle; [congruence|]. cbn.
    rewrite Hdb, Hfresh. reflexivity.
  - reflexivity.
  - reflexivity.
  - reflexivity.
  - exists ((env, (newObjectId env,
               toTask (Task_new env
                 (spreadWithServer (newTaskBody (newTask st).1 (newTask st).2)
                    (hostname env) (getServerIp env))))) :: shown).
    split.
    + rewrite Hts. reflexivity.
    + cbn [fmap list_fmap snd].
      rewrite map_to_list_insert by exact Hfresh. constructor. exact Hp.
Qed.

Lemma submit_keeps_sync_witness :
  exists task,
    submit Node.lib Sample.env (Sample.store, Sample.appState)
    = (<[7%N := task]> Sample.store,
       {| tasks := [toJSON Node.lib (7%N, task); Sample.listed];
          serverInfo := None;
          newTask := (EmptyString, EmptyString);
          loading := false |})
    /\ title task = Has "Walk the dog"
    /\ description task = Has "before noon"
    /\ completed task = Has false
    /\ inSync Node.lib (<[7%N := task]> Sample.store)
         [toJSON Node.lib (7%N, task); Sample.listed].
Proof.
  apply (submit_keeps_sync Node.lib Sample.env Sample.store Sample.appState).
  - exists [(Sample.env, (1%N, Sample.task))]. split; reflexivity.
  - discriminate.
  - reflexivity.
  - reflexivity.
Defined.



(** X14. A click on a delete button, against a reachable store, when
    the list shows exactly the stored records and the cast reads their
    printed identifiers back: the clicked record is removed from the
    store and from the list, nothing else changes, and the list again
    shows exactly the stored records. *)
Theorem delete_keeps_sync
    (lib : Lib) (env : Env) (store : Store) (st : AppState) (k : nat) :
  inSync lib store (tasks st) ->
  readsBack lib store ->
  dbError env = None ->
  k < length (tasks st) ->
  inSync lib (clickDelete lib env (store, st) k).1
             (tasks (clickDelete lib env (store, st) k).2)
  /\ S (length (tasks (clickDelete lib env (store, st) k).2)) = length (tasks st)
  /\ exists e i t,
       store !! i = Some t
       /\ tasks st !! k = Some (toJSON lib (hydrateDoc e (i, t)))
       /\ (clickDelete lib env (store, st) k).1 = delete i store.
Proof.
  intros (shown & Hts & Hp) Hrb Hdb Hk. rewrite Hts in Hk.
  destruct (sync_lookup lib store shown k Hp Hk) as (e & i & t & Hd & Hl & Hi).
  rewrite <- Hts in Hl.
  assert (Hn : Forall (fun task => task <> JNull) (tasks st))
    by (rewrite Hts; apply sync_no_null).
  rewrite (clickDelete_entry lib e env store st k i t (Hrb i t Hi) Hdb Hl Hn).
  cbn [fst snd setTasks tasks].
  assert (Hf : filter (fun task => strictEq (idOf task) (Some (JStr (toHexString i))) = false)
                 (tasks st)
               = (fun a => toJSON lib (hydrateDoc a.1 a.2))
                   <$> filter (fun a : Env * Doc => a.2.1 <> i) shown).
  { rewrite Hts. apply filter_toJSON. eapply sync_keys; eauto. }
  pose proof (perm_delete store shown.*2 i t Hp Hi) as Hpd.
  rewrite <- shown_filter in Hpd.
  split; [|split].
  - eexists. split; [exact Hf | exact Hpd].
  - rewrite Hf, Hts, !length_fmap.
    rewrite <- (length_fmap snd (filter _ shown)), <- (length_fmap snd shown).
    rewrite Hpd, Hp.
    rewrite <- (map_to_list_delete store i t Hi). reflexivity.
  - exists e, i, t. auto.
Qed.

Lemma delete_keeps_sync_witness :
  inSync Node.lib
    (clickDelete Node.lib Sample.env (Sample.store, Sample.appState) 0).1
    (tasks (clickDelete Node.lib Sample.env (Sample.store, Sample.appState) 0).2)
  /\ S (length (tasks (clickDelete Node.lib Sample.env
                         (Sample.store, Sample.appState) 0).2)) = 1
  /\ exists e i t,
       Sample.store !! i = Some t
       /\ tasks Sample.appState !! 0 = Some (toJSON Node.lib (hydrateDoc e (i, t)))
       /\ (clickDelete Node.lib Sample.env (Sample.store, Sample.appState) 0).1
          = delete i Sample.store.
Proof.
  apply (delete_keeps_sync Node.lib Sample.env Sample.store Sample.appState 0).
  - exists [(Sample.env, (1%N, Sample.task))]. split; reflexivity.
  - intros j t H. unfold Sample.store in H.
    apply lookup_singleton_Some in H as [<- _]. reflexivity.
  - reflexivity.
  - simpl. lia.
Defined.

(** ** Mounting again *)

Lemma mounted_state (b : Browser) (n : nat) :
  intervals b = [] ->
  Handlers.mounted b n
  = {| clock := clock b + Z.of_nat n;
       intervals := [{| handle := nextHandle b; period := 10000;
                        due := clock b + 10000 * (Z.of_nat (periods n) + 1);
                        action := FetchServerInfo |}];
       nextHandle := S (nextHandle b);
       sent := sent b ++ pollsUntil (clock b) n |}.
Proof.
  intros Hb. unfold Handlers.mounted. induction n as [|n IH].
  - cbn. rewrite Hb. unfold pollsUntil. cbn.
    rewrite <- app_assoc. cbn. repeat f_equal; lia.
  - change (run (S n) ?x) with (tick (run n x)). rewrite IH. clear IH.
    unfold tick. cbn [clock intervals nextHandle sent foldl].
    unfold fire. cbn [clock intervals nextHandle sent due].
    destruct (periods_succ n) as [[Hq Hlt] | [Hq Heq]].
    + rewrite decide_False by lia. rewrite Hq. unfold pollsUntil. rewrite Hq.
      f_equal. lia.
    + rewrite decide_True by lia.
      cbn. unfold pollsUntil. rewrite Hq, seq_S, fmap_app.
      rewrite decide_True by reflexivity.
      unfold fetchServerInfo, send, reschedule. cbn.
      rewrite <- !app_assoc. cbn.
      f_equal; [lia | do 2 f_equal; lia | do 6 f_equal; lia].
Qed.

Lemma idle_state (m : nat) (b : Browser) :
  intervals b = [] ->
  run m b = {| clock := clock b + Z.of_nat m; intervals := [];
               nextHandle := nextHandle b; sent := sent b |}.
Proof.
  intros Hb. induction m as [|m IH].
  - destruct b; cbn in *. subst. f_equal. lia.
  - change (run (S m) b) with (tick (run m b)). rewrite IH. unfold tick. cbn.
    f_equal. lia.
Qed.

(** X15. Mounting, unmounting and mounting again leaves one interval
    running, not two: after a first mount of [n] ms, a pause of [m] ms
    and [p] ms of a second mount, the requests are those of the first
    mount followed by those of the second (its two requests at mount and
    one server-info request per 10000 ms counted from the second
    mount), exactly one interval is active, and the second cleanup
    clears it. Nothing is sent during the pause. *)
Theorem remount_polls_once (t0 : Z) (n m p : nat) :
  let b1 := Handlers.mounted (freshPage t0) n in
  let b2 := run m ((App_effect (freshPage t0)).2 b1) in
  let b3 := Handlers.mounted b2 p in
  sent b2 = pollsUntil t0 n
  /\ sent b3 = pollsUntil t0 n ++ pollsUntil (t0 + Z.of_nat n + Z.of_nat m) p
  /\ length (intervals b3) = 1
  /\ intervals ((App_effect b2).2 b3) = [].
Proof.
  intros b1 b2 b3.
  assert (H1 : b1 = {| clock := t0 + Z.of_nat n;
                       intervals := [{| handle := 0; period := 10000;
                                        due := t0 + 10000 * (Z.of_nat (periods n) + 1);
                                        action := FetchServerInfo |}];
                       nextHandle := 1;
                       sent := pollsUntil t0 n |})
    by (unfold b1; rewrite mounted_state by reflexivity; reflexivity).
  assert (H2 : b2 = {| clock := t0 + Z.of_nat n + Z.of_nat m; intervals := [];
                       nextHandle := 1; sent := pollsUntil t0 n |})
    by (unfold b2; rewrite H1, idle_state by reflexivity; reflexivity).
  assert (H3 : b3 = {| clock := t0 + Z.of_nat n + Z.of_nat m + Z.of_nat p;
                       intervals := [{| handle := 1; period := 10000;
                                        due := t0 + Z.of_nat n + Z.of_nat m
                                               + 10000 * (Z.of_nat (periods p) + 1);
                                        action := FetchServerInfo |}];
                       nextHandle := 2;
                       sent := pollsUntil t0 n
                               ++ pollsUntil (t0 + Z.of_nat n + Z.of_nat m) p |})
    by (unfold b3; rewrite H2, mounted_state by reflexivity; reflexivity).
  rewrite H3, H2. repeat split.
Qed.

(** ** The configuration record between the two scripts *)

Import Deploy.

Lemma plainWord_inv (s : string) :
  plainWord s = true ->
  allPlain s = true /\ exists a s', s = String a s'.
Proof. destruct s as [|a s']; [discriminate|]. intros H. eauto. Qed.

Lemma source_cons (line : string) (rest : list string) (vars : gmap string string)
    (a : ascii) (name value : string) :
  cutAtEquals line = Some (String a name, value) ->
  isDigit (N_of_ascii a) = false ->
  allPlain value = true ->
  source (line :: rest) vars = source rest (<[String a name := value]> vars).
Proof. intros Hc Hd Hp. cbn [source]. rewrite Hc, Hd, Hp. reflexivity. Qed.

Lemma expand_plain (name v : string) (vars : gmap string string) :
  vars !! name = Some v -> plainWord v = true -> expand name vars = [v].
Proof.
  intros Hl Hp. unfold expand. rewrite Hl.
  destruct v; [discriminate | reflexivity].
Qed.

(** X16. The record aws-setup.sh writes is the record
    deploy-instances.sh reads: when every identifier is a plain word,
    sourcing the written file assigns exactly the fourteen variables,
    each with the value written, and the database instance is then
    launched with the key pair, the database security group and the
    first private subnet of that record, as a t3.small in us-east-1. *)
Theorem config_round_trip (c : Config) :
  plainConfig c = true ->
  exists vars0 vars,
    source (configLines c) ∅ = Some vars0
    /\ dom vars0 = list_to_set (configVars c).*1
    /\ Forall (fun kv => vars0 !! kv.1 = Some kv.2) (configVars c)
    /\ deployVars (configLines c) = Some vars
    /\ AwsSetup.optionValue "--key-name" (AwsSetup.options (run_instances_db vars))
       = Some (KEY_PAIR_NAME c)
    /\ AwsSetup.optionValue "--security-group-ids"
         (AwsSetup.options (run_instances_db vars))
       = Some (DB_SG c)
    /\ AwsSetup.optionValue "--subnet-id" (AwsSetup.options (run_instances_db vars))
       = Some (PRIVATE_SUBNET_1 c)
    /\ AwsSetup.optionValue "--instance-type" (AwsSetup.options (run_instances_db vars))
       = Some "t3.small"
    /\ AwsSetup.optionValue "--region" (AwsSetup.options (run_instances_db vars))
       = Some "us-east-1".
Proof.
  intros H. unfold plainConfig in H. destruct c; cbn in H.
  repeat (apply andb_true_iff in H as [H ?]).
  repeat match goal with
         | Hp : plainWord _ = true |- _ =>
             let Ha := fresh "Ha" in
             pose proof (proj1 (plainWord_inv _ Hp)) as Ha;
             revert Hp
         end.
  intros.
  assert (Hs : source (configLines
                 {| VPC_ID := VPC_ID0; IGW_ID := IGW_ID0;
                    PUBLIC_SUBNET_1 := PUBLIC_SUBNET_3;
                    PUBLIC_SUBNET_2 := PUBLIC_SUBNET_4;
                    PRIVATE_SUBNET_1 := PRIVATE_SUBNET_3;
                    PRIVATE_SUBNET_2 := PRIVATE_SUBNET_4;
                    ALB_SG := ALB_SG0; BACKEND_SG := BACKEND_SG0;
                    FRONTEND_SG := FRONTEND_SG0; DB_SG := DB_SG0;
                    TARGET_GROUP_ARN := TARGET_GROUP_ARN0; ALB_ARN := ALB_ARN0;
                    ALB_DNS := ALB_DNS0; KEY_PAIR_NAME := KEY_PAIR_NAME0 |}) ∅
              = Some (<["KEY_PAIR_NAME" := KEY_PAIR_NAME0]>
                     (<["ALB_DNS" := ALB_DNS0]>
                     (<["ALB_ARN" := ALB_ARN0]>
                     (<["TARGET_GROUP_ARN" := TARGET_GROUP_ARN0]>
                     (<["DB_SG" := DB_SG0]>
                     (<["FRONTEND_SG" := FRONTEND_SG0]>
                     (<["BACKEND_SG" := BACKEND_SG0]>
                     (<["ALB_SG" := ALB_SG0]>
                     (<["PRIVATE_SUBNET_2" := PRIVATE_SUBNET_4]>
                     (<["PRIVATE_SUBNET_1" := PRIVATE_SUBNET_3]>
                     (<["PUBLIC_SUBNET_2" := PUBLIC_SUBNET_4]>
                     (<["PUBLIC_SUBNET_1" := PUBLIC_SUBNET_3]>
                     (<["IGW_ID" := IGW_ID0]>
                     (<["VPC_ID" := VPC_ID0]> ∅))))))))))))))).
  { unfold configLines. cbn [VPC_ID IGW_ID PUBLIC_SUBNET_1 PUBLIC_SUBNET_2
      PRIVATE_SUBNET_1 PRIVATE_SUBNET_2 ALB_SG BACKEND_SG FRONTEND_SG DB_SG
      TARGET_GROUP_ARN ALB_ARN ALB_DNS KEY_PAIR_NAME].
    repeat (erewrite source_cons; [| reflexivity | reflexivity | eassumption]).
    reflexivity. }
  eexists _, _. split; [exact Hs|].
  split; [|split; [|split; [unfold deployVars; rewrite Hs; reflexivity|]]].
  - rewrite !dom_insert_L, dom_empty_L. cbn. set_solver.
  - cbn [configVars VPC_ID IGW_ID PUBLIC_SUBNET_1 PUBLIC_SUBNET_2
      PRIVATE_SUBNET_1 PRIVATE_SUBNET_2 ALB_SG BACKEND_SG FRONTEND_SG DB_SG
      TARGET_GROUP_ARN ALB_ARN ALB_DNS KEY_PAIR_NAME].
    repeat constructor; cbn [fst snd]; simplify_map_eq; reflexivity.
  - unfold run_instances_db.
    rewrite (expand_plain "AMI_ID" "ami-0c55b159cbfafe1f0") by (simplify_map_eq; reflexivity).
    rewrite (expand_plain "KEY_PAIR_NAME" KEY_PAIR_NAME0) by (simplify_map_eq; done).
    rewrite (expand_plain "DB_SG" DB_SG0) by (simplify_map_eq; done).
    rewrite (expand_plain "PRIVATE_SUBNET_1" PRIVATE_SUBNET_3) by (simplify_map_eq; done).
    rewrite (expand_plain "AWS_REGION" "us-east-1") by (simplify_map_eq; reflexivity).
    cbn [KEY_PAIR_NAME DB_SG PRIVATE_SUBNET_1]. repeat split.
Qed.

Lemma config_round_trip_witness :
  exists vars0 vars,
    source (configLines sampleConfig) ∅ = Some vars0
    /\ dom vars0 = list_to_set (configVars sampleConfig).*1
    /\ Forall (fun kv => vars0 !! kv.1 = Some kv.2) (configVars sampleConfig)
    /\ deployVars (configLines sampleConfig) = Some vars
    /\ AwsSetup.optionValue "--key-name" (AwsSetup.options (run_instances_db vars))
       = Some "fullstack-key"
    /\ AwsSetup.optionValue "--security-group-ids"
         (AwsSetup.options (run_instances_db vars))
       = Some "sg-0d"
    /\ AwsSetup.optionValue "--subnet-id" (AwsSetup.options (run_instances_db vars))
       = Some "subnet-03"
    /\ AwsSetup.optionValue "--instance-type" (AwsSetup.options (run_instances_db vars))
       = Some "t3.small"
    /\ AwsSetup.optionValue "--region" (AwsSetup.options (run_instances_db vars))
       = Some "us-east-1".
Proof.
  apply (config_round_trip sampleConfig). reflexivity.
Defined.
